(** * Fertilizer predictor: the soil classifier and the authenticated soil client

    A shallow embedding of [fertilizer_predictor.py].  Python values that
    travel through the program (JSON payloads, tokens, thresholds) are an
    inductive type [pyval]; Python floats are IEEE 754 binary64 numbers in
    the [spec_float] representation of the Standard Library; exceptions are
    an explicit result type; the HTTP client runs in a small state and
    exception monad over the fetcher object and a log of its effects.

    What the program takes from outside is a parameter: the parser behind
    [float(str)] is a function [string -> option float], the remote
    service and the clock are a [world] that answers knowing the log so
    far.  Text is over the code points below 256.  The behaviour of the
    [requests] library is the one of its releases from 2.27 on, where the
    error of [response.json()] is a [RequestException].  The Gemini model
    is a function from the prompt, kept as the values it interpolates, to
    a text or the message of an [Exception]; the lines the program prints
    are kept as constructors with the values they interpolate. *)

From Stdlib Require Import ZArith NArith Ascii List Bool Lia.
From Stdlib Require Import Floats.SpecFloat.
From stdpp Require Import gmap strings.

Local Open Scope string_scope.
Local Open Scope list_scope.
Local Open Scope Z_scope.

(** ** Python values *)

(** A Python float is a binary64 number: 53 bits of precision, infinities
    at exponent 1024. *)
Definition prec : Z := 53.
Definition emax : Z := 1024.

Abbreviation float := spec_float.

Definition float_leb (x y : float) : bool := SFleb x y.
Definition float_ltb (x y : float) : bool := SFltb x y.
Definition float_add (x y : float) : float := SFadd prec emax x y.
Definition float_div (x y : float) : float := SFdiv prec emax x y.

#[local] Set Warnings "-register-all".

(** The values [json.loads] can produce, which are also the values the
    classifier is handed. *)
Inductive pyval :=
| PNone
| PBool (b : bool)
| PInt (z : Z)
| PFloat (f : float)
| PStr (s : string)
| PList (l : list pyval)
| PDict (d : gmap string pyval).

(** The exceptions that the modelled operations raise.  [RequestException]
    stands for [requests.exceptions.RequestException] and its subclasses,
    told apart by [request_error]. *)
Inductive request_error :=
| ConnectionError
| Timeout
| HTTPError (status : Z)
| JSONDecodeError.

Inductive exn :=
| AttributeError
| KeyError
| IndexError
| TypeError
| ValueError
| OverflowError
| RequestException (k : request_error).

Inductive result (A : Type) :=
| Ok (a : A)
| Raise (e : exn).
Arguments Ok {A} a.
Arguments Raise {A} e.

Definition rbind {A B} (r : result A) (k : A -> result B) : result B :=
  match r with
  | Ok a => k a
  | Raise e => Raise e
  end.

Declare Scope result_scope.
Delimit Scope result_scope with result.
Notation "x <- r ;; k" := (rbind r (fun x => k))
  (at level 100, r at next level, right associativity) : result_scope.

(** ** Builtins used by the classifier *)

(** [int.__float__]: the nearest binary64 number, ties to even;
    [OverflowError] when that is beyond the largest finite one. *)
Definition Z2SF (z : Z) : float := binary_normalize prec emax z 0 false.

Definition float_of_int (z : Z) : result float :=
  match Z2SF z with
  | S754_infinity _ => Raise OverflowError
  | f => Ok f
  end.

(** [str.lower] on text of code points below 256: the ASCII capitals and
    the Latin-1 capitals (all of 192..222 but the multiplication sign 215)
    move up by 32, every other character is left alone. *)
Definition lower_char (c : ascii) : ascii :=
  let n := N_of_ascii c in
  if ((65 <=? n) && (n <=? 90))%N then ascii_of_N (n + 32)
  else if ((192 <=? n) && (n <=? 222) && negb (n =? 215))%N then ascii_of_N (n + 32)
  else c.

Fixpoint lower (s : string) : string :=
  match s with
  | EmptyString => EmptyString
  | String c s' => String (lower_char c) (lower s')
  end.

(** Truth value of a Python object ([bool(x)]). *)
Definition py_truthy (v : pyval) : bool :=
  match v with
  | PNone => false
  | PBool b => b
  | PInt z => negb (z =? 0)
  | PFloat (S754_zero _) => false
  | PFloat _ => true
  | PStr s => negb (String.length s =? 0)%nat
  | PList l => negb (length l =? 0)%nat
  | PDict d => negb (size d =? 0)%nat
  end.

(** [len(x)] *)
Definition py_len (v : pyval) : result nat :=
  match v with
  | PStr s => Ok (String.length s)
  | PList l => Ok (length l)
  | PDict d => Ok (size d)
  | _ => Raise TypeError
  end.

(** [x.get(key, default)]: only a dict has the method. *)
Definition py_get (v : pyval) (key : string) (default : pyval) : result pyval :=
  match v with
  | PDict d => Ok (match d !! key with Some x => x | None => default end)
  | _ => Raise AttributeError
  end.

(** [x[key]] for a string key. *)
Definition py_getitem (v : pyval) (key : string) : result pyval :=
  match v with
  | PDict d => match d !! key with Some x => Ok x | None => Raise KeyError end
  | _ => Raise TypeError
  end.

(** [x[0]]: a JSON object has string keys only, so the integer key is
    never found. *)
Definition py_first (v : pyval) : result pyval :=
  match v with
  | PList (x :: _) => Ok x
  | PList [] => Raise IndexError
  | PStr (String c _) => Ok (PStr (String c EmptyString))
  | PStr EmptyString => Raise IndexError
  | PDict _ => Raise KeyError
  | _ => Raise TypeError
  end.

Definition is_str (key : string) (v : pyval) : bool :=
  match v with
  | PStr s => String.eqb key s
  | _ => false
  end.

Fixpoint is_substring (key s : string) : bool :=
  String.prefix key s ||
  match s with
  | EmptyString => false
  | String _ s' => is_substring key s'
  end.

(** [key in x] for a string key: key membership in a dict, element
    membership in a list, substring test in a str. *)
Definition py_contains (v : pyval) (key : string) : result bool :=
  match v with
  | PDict d => Ok (bool_decide (is_Some (d !! key)))
  | PList l => Ok (existsb (is_str key) l)
  | PStr s => Ok (is_substring key s)
  | _ => Raise TypeError
  end.

(** ** SoilClassifier *)

(** A threshold is written in the source as a float literal or as an int
    literal. *)
Inductive pynum :=
| NInt (z : Z)
| NFloat (f : float).

(** Comparing a float with an int of at most 48 bits, CPython converts the
    int to a double, which is exact; the ints of the table are below 256. *)
Definition num_as_float (n : pynum) : float :=
  match n with
  | NInt z => Z2SF z
  | NFloat f => f
  end.

Definition float_le_num (v : float) (n : pynum) : bool :=
  float_leb v (num_as_float n).

(** The float literals of the table: the binary64 numbers nearest to the
    decimals. *)
Definition lit_1_5 : float := S754_finite false 6755399441055744 (-52).
Definition lit_5_0 : float := S754_finite false 5629499534213120 (-50).
Definition lit_5_3 : float := S754_finite false 5967269506265907 (-50).
Definition lit_7_3 : float := S754_finite false 8219069319951155 (-50).

Record thresholds := { low : pynum; high : pynum }.

Definition THRESHOLDS : gmap string thresholds :=
  list_to_map
    [ ("nitrogen",   {| low := NFloat lit_1_5; high := NFloat lit_5_0 |});
      ("phosphorus", {| low := NInt 10;        high := NInt 50 |});
      ("potassium",  {| low := NInt 39;        high := NInt 195 |});
      ("ph",         {| low := NFloat lit_5_3; high := NFloat lit_7_3 |}) ].

Record entry := { value : pyval; classification : string }.

Section Classifier.

(** [float(s)] on a str: the parsed number, or [None] where Python
    raises [ValueError]. *)
Variable float_of_str : string -> option float.

(** The builtin [float(x)]. *)
Definition py_float (v : pyval) : result float :=
  match v with
  | PFloat f => Ok f
  | PInt z => float_of_int z
  | PBool b => float_of_int (if b then 1 else 0)
  | PStr s => match float_of_str s with
              | Some f => Ok f
              | None => Raise ValueError
              end
  | PNone | PList _ | PDict _ => Raise TypeError
  end.

(** Every record of the table is a non-empty dict, hence truthy:
    [if not thresholds] is taken exactly when the key is not found. *)
Definition classify_property (value : pyval) (property_name : string)
  : result string :=
  match THRESHOLDS !! lower property_name with
  | None => Ok "Unknown"
  | Some thresholds =>
      match py_float value with
      | Raise TypeError | Raise ValueError => Ok "Unknown"
      | Raise e => Raise e
      | Ok v =>
          if float_le_num v (low thresholds) then Ok "Low"
          else if float_le_num v (high thresholds) then Ok "Moderate"
          else Ok "High"
      end
  end.

Definition property_mapping : list (string * string) :=
  [ ("nitrogen_total", "nitrogen");
    ("phosphorous_extractable", "phosphorus");
    ("potassium_extractable", "potassium");
    ("ph", "ph") ].

(** One turn of the loop of [classify_soil_data]. *)
Definition classify_field (soil_data : pyval) (classified : gmap string entry)
    (api_field class_name : string) : result (gmap string entry) :=
  (props <- py_get soil_data "property" (PDict ∅) ;;
   present <- py_contains props api_field ;;
   if present : bool then
     props' <- py_getitem soil_data "property" ;;
     property_data <- py_getitem props' api_field ;;
     nonempty <- (if py_truthy property_data
                  then n <- py_len property_data ;; Ok (0 <? n)%nat
                  else Ok false) ;;
     if nonempty : bool then
       record <- py_first property_data ;;
       outer <- py_getitem record "value" ;;
       value <- py_getitem outer "value" ;;
       classification <- classify_property value class_name ;;
       Ok (<[class_name := {| value := value;
                              classification := classification |}]> classified)
     else Ok classified
   else Ok classified)%result.

Fixpoint classify_fields (soil_data : pyval) (classified : gmap string entry)
    (mapping : list (string * string)) : result (gmap string entry) :=
  match mapping with
  | [] => Ok classified
  | (api_field, class_name) :: rest =>
      (classified' <- classify_field soil_data classified api_field class_name ;;
       classify_fields soil_data classified' rest)%result
  end.

Definition classify_soil_data (soil_data : pyval) : result (gmap string entry) :=
  classify_fields soil_data ∅ property_mapping.

End Classifier.

(** The threshold table as the specification prints it: property, low
    threshold and high threshold, as binary64 numbers. *)
Definition threshold_table : list (string * float * float) :=
  [ ("nitrogen",   lit_1_5,  lit_5_0);
    ("phosphorus", Z2SF 10,  Z2SF 50);
    ("potassium",  Z2SF 39,  Z2SF 195);
    ("ph",         lit_5_3,  lit_7_3) ].

(** A parser that rejects every string, for concrete runs that hand the
    classifier no string. *)
Definition no_parse (_ : string) : option float := None.

(** The literal [5.01]. *)
Definition lit_5_01 : float := S754_finite false 5640758533281546 (-50).

(** What the payload holds for a raw field: the entry of the mapping under
    ["property"], when the payload is a mapping that has one. *)
Definition raw_field (soil_data : pyval) (api_field : string) : option pyval :=
  match soil_data with
  | PDict d =>
      match d !! "property" with
      | Some (PDict fields) => fields !! api_field
      | _ => None
      end
  | _ => None
  end.

(** [record["value"]["value"]] *)
Definition nested_value (record : pyval) : result pyval :=
  (outer <- py_getitem record "value" ;; py_getitem outer "value")%result.

(** The canonical names. *)
Definition class_names : list string := map snd property_mapping.

(** An integer beyond the range of binary64, as a JSON document can spell
    one out. *)
Definition huge_int : Z := 10 ^ 400.

(** [{"property": {"ph": [{}]}}]: the first record of [ph] has no
    ["value"] key. *)
Definition payload_bare_record : pyval :=
  PDict {[ "property" := PDict {[ "ph" := PList [PDict ∅] ]} ]}.

(** The payload of the specification's worked example. *)
Definition measurement (v : pyval) : pyval :=
  PList [ PDict {[ "value" := PDict {[ "value" := v ]} ]} ].

Definition payload_example : pyval :=
  PDict {[ "property" :=
    PDict (<[ "nitrogen_total" := measurement (PFloat (Z2SF 3)) ]>
           (<[ "phosphorous_extractable" := measurement (PInt 60) ]>
           (<[ "potassium_extractable" := measurement (PInt 20) ]>
           (<[ "ph" := measurement (PFloat lit_5_3) ]> ∅)))) ]}.

(** The same without [ph], with an empty [potassium_extractable], with a
    field the classifier does not know and a nitrogen value that is no
    number. *)
Definition payload_partial : pyval :=
  PDict {[ "property" :=
    PDict (<[ "nitrogen_total" := measurement (PStr "n/a") ]>
           (<[ "phosphorous_extractable" := measurement (PInt 60) ]>
           (<[ "potassium_extractable" := PList [] ]>
           (<[ "carbon_total" := measurement (PInt 7) ]> ∅)))) ]}.

(** A raw field the loop passes over: absent, or present and falsy (the
    empty list above all). *)
Definition omitted (soil_data : pyval) (api_field : string) : Prop :=
  raw_field soil_data api_field = None \/
  exists data, raw_field soil_data api_field = Some data /\ py_truthy data = false.

(** A raw field the loop files as entry [e]: present and truthy, with a
    first element whose nested value is [value e] and is classified as
    [classification e]. *)
Definition filed (float_of_str : string -> option float) (soil_data : pyval)
    (api_field class_name : string) (e : entry) : Prop :=
  exists data record,
    raw_field soil_data api_field = Some data /\
    py_truthy data = true /\
    py_first data = Ok record /\
    nested_value record = Ok (value e) /\
    classify_property float_of_str (value e) class_name = Ok (classification e).

(** A raw field the loop gets through without an exception other than the
    [OverflowError] of [float()]: absent, falsy, or a non-empty list whose
    first record holds a nested value. *)
Definition well_shaped (soil_data : pyval) (api_field : string) : Prop :=
  match raw_field soil_data api_field with
  | None => True
  | Some data =>
      py_truthy data = false \/
      exists record rest v,
        data = PList (record :: rest) /\ nested_value record = Ok v
  end.

(** The nested value of the first record of a raw field, when the field is
    a non-empty list and the record has one. *)
Definition first_value (soil_data : pyval) (api_field : string) : option pyval :=
  match raw_field soil_data api_field with
  | Some (PList (record :: _)) =>
      match nested_value record with
      | Ok v => Some v
      | Raise _ => None
      end
  | _ => None
  end.

(** The payload is a mapping and what it holds under ["property"], if
    anything, is a mapping. *)
Definition payload_mapping (soil_data : pyval) : Prop :=
  match soil_data with
  | PDict d =>
      match d !! "property" with
      | None | Some (PDict _) => True
      | Some _ => False
      end
  | _ => False
  end.

(** [{"property": {"nitrogen_total": [{"value": {"value": 3.0}}],
    "ph": [{}]}}]: a well-formed nitrogen field beside a [ph] record
    without the ["value"] key. *)
Definition payload_mixed : pyval :=
  PDict {[ "property" :=
    PDict (<[ "nitrogen_total" := measurement (PFloat (Z2SF 3)) ]>
           (<[ "ph" := PList [PDict ∅] ]> ∅)) ]}.

(** [{"property": {"carbon_total": [{"value": {"value": 7}}]}}]: one field,
    which the classifier does not know. *)
Definition payload_unrecognized : pyval :=
  PDict {[ "property" := PDict {[ "carbon_total" := measurement (PInt 7) ]} ]}.

(** The profiles the specification expects for the two payloads above. *)
Definition profile_example : gmap string entry :=
  <[ "ph" := {| value := PFloat lit_5_3; classification := "Low" |} ]>
  (<[ "potassium" := {| value := PInt 20; classification := "Low" |} ]>
  (<[ "phosphorus" := {| value := PInt 60; classification := "High" |} ]>
  (<[ "nitrogen" := {| value := PFloat (Z2SF 3); classification := "Moderate" |} ]> ∅))).

Definition profile_partial : gmap string entry :=
  <[ "phosphorus" := {| value := PInt 60; classification := "High" |} ]>
  (<[ "nitrogen" := {| value := PStr "n/a"; classification := "Unknown" |} ]> ∅).

(** ** The requests library and the clock *)

Inductive http_method := GET | POST.

(** A header value is a literal, or the f-string ["Bearer {token}"] built
    from the stored token, whatever object that is. *)
Inductive header_value :=
| HStr (s : string)
| HBearer (token : pyval).

Record request := {
  method : http_method;
  url : string;
  params : list (string * pyval);
  headers : list (string * header_value);
  data : list (string * string);
  timeout : option Z
}.

(** What came back: the status code and what [response.json()] gives,
    [None] when the body is not JSON. *)
Record Response := { status_code : Z; json_body : option pyval }.

(** A call of [requests.get] or [requests.post] returns a response or
    raises a [RequestException]. *)
Inductive net_result :=
| Answer (r : Response)
| Failure (e : request_error).

(** The lines the client prints, with the values they interpolate. *)
Inductive message :=
| AuthSucceeded
| AuthFailed (e : request_error)
| FetchSucceeded (latitude longitude : float)
| FetchFailed (e : request_error).

Inductive event :=
| Request (r : request)
| Print (m : message).

(** The outside world: the remote service answers a request knowing
    everything that happened before it; the clock likewise. *)
Record world := {
  net : list event -> request -> net_result;
  clock : list event -> float
}.

(** ** SoilDataFetcher *)

Definition TIMEOUT_S : Z := 15.

Record SoilDataFetcher := {
  username : string;
  password : string;
  base_url : string;
  access_token : pyval;
  token_expiry : option float
}.

(** [__init__] *)
Definition new_SoilDataFetcher (username password : string) : SoilDataFetcher :=
  {| username := username;
     password := password;
     base_url := "https://api.isda-africa.com";
     access_token := PNone;
     token_expiry := None |}.

(** The program state: the fetcher object and the log of effects so far,
    oldest first. *)
Record state := { self : SoilDataFetcher; log : list event }.

Definition M (A : Type) : Type := state -> result A * state.

Definition ret {A} (a : A) : M A := fun s => (Ok a, s).

Definition raise {A} (e : exn) : M A := fun s => (Raise e, s).

Definition bind {A B} (m : M A) (k : A -> M B) : M B :=
  fun s => match m s with
           | (Ok a, s') => k a s'
           | (Raise e, s') => (Raise e, s')
           end.

Definition lift {A} (r : result A) : M A := fun s => (r, s).

(** [try: body except requests.exceptions.RequestException as e: handler]:
    the state reached when the exception was raised is kept; any other
    exception goes through. *)
Definition try_except {A} (body : M A) (handler : request_error -> M A) : M A :=
  fun s => match body s with
           | (Raise (RequestException e), s') => handler e s'
           | r => r
           end.

Declare Scope fetcher_scope.
Delimit Scope fetcher_scope with M.
Notation "x <- m ;; k" := (bind m (fun x => k))
  (at level 100, m at next level, right associativity) : fetcher_scope.
Notation "m ;; k" := (bind m (fun _ => k))
  (at level 100, right associativity) : fetcher_scope.

Definition emit (e : event) : M unit :=
  fun s => (Ok tt, {| self := self s; log := log s ++ [e] |}).

Definition print (m : message) : M unit := emit (Print m).

Definition get_self : M SoilDataFetcher := fun s => (Ok (self s), s).

Definition set_access_token (v : pyval) : M unit :=
  fun s => (Ok tt, {| self := {| username := username (self s);
                                 password := password (self s);
                                 base_url := base_url (self s);
                                 access_token := v;
                                 token_expiry := token_expiry (self s) |};
                      log := log s |}).

Definition set_token_expiry (v : option float) : M unit :=
  fun s => (Ok tt, {| self := {| username := username (self s);
                                 password := password (self s);
                                 base_url := base_url (self s);
                                 access_token := access_token (self s);
                                 token_expiry := v |};
                      log := log s |}).

Section Client.

Variable W : world.

(** [requests.get] and [requests.post]: the request is logged and the
    world answers it, or raises a [RequestException]; the headers are
    taken to be encodable, as they are over the code points of this
    model. *)
Definition send (r : request) : M Response :=
  fun s =>
    let s' := {| self := self s; log := log s ++ [Request r] |} in
    match net W (log s) r with
    | Answer resp => (Ok resp, s')
    | Failure e => (Raise (RequestException e), s')
    end.

(** [time.time()] *)
Definition time_time : M float := fun s => (Ok (clock W (log s)), s).

(** [response.raise_for_status()]: an [HTTPError] for a 4xx or a 5xx
    status, nothing otherwise. *)
Definition raise_for_status (r : Response) : M unit :=
  if (400 <=? status_code r) && (status_code r <? 600)
  then raise (RequestException (HTTPError (status_code r)))
  else ret tt.

(** [response.json()]: the parsed body, or
    [requests.exceptions.JSONDecodeError], which is a [RequestException].
    A body on which the parser fails otherwise (an integer literal beyond
    the digit limit, nesting beyond the recursion limit) is no [Response]
    of this model. *)
Definition response_json (r : Response) : M pyval :=
  match json_body r with
  | Some v => ret v
  | None => raise (RequestException JSONDecodeError)
  end.

Definition login_request (o : SoilDataFetcher) : request :=
  {| method := POST;
     url := base_url o +:+ "/login";
     params := [];
     headers := [ ("accept", HStr "application/json");
                  ("Content-Type", HStr "application/x-www-form-urlencoded") ];
     data := [ ("grant_type", "password");
               ("username", username o);
               ("password", password o);
               ("scope", "");
               ("client_id", "string");
               ("client_secret", "string") ];
     timeout := None |}.

Definition authenticate : M bool :=
  try_except
    (o <- get_self ;;
     response <- send (login_request o) ;;
     raise_for_status response ;;
     token_data <- response_json response ;;
     token <- lift (py_get token_data "access_token" PNone) ;;
     set_access_token token ;;
     now <- time_time ;;
     set_token_expiry (Some (float_add now (Z2SF 3600))) ;;
     print AuthSucceeded ;;
     ret true)%M
    (fun e => print (AuthFailed e) ;; ret false)%M.

(** [_is_token_valid] *)
Definition _is_token_valid : M bool :=
  (o <- get_self ;;
   match access_token o, token_expiry o with
   | PNone, _ | _, None => ret false
   | _, Some expiry =>
       now <- time_time ;;
       ret (float_ltb now (SFsub prec emax expiry (Z2SF 300)))
   end)%M.

(** [_get_headers] *)
Definition _get_headers : M (list (string * header_value)) :=
  (o <- get_self ;;
   ret [ ("Authorization", HBearer (access_token o));
         ("Content-Type", HStr "application/json") ])%M.

Definition soil_request (o : SoilDataFetcher) (latitude longitude : float)
    (hdrs : list (string * header_value)) : request :=
  {| method := GET;
     url := base_url o +:+ "/isdasoil/v2/soilproperty";
     params := [ ("lon", PFloat longitude);
                 ("lat", PFloat latitude);
                 ("depth", PStr "0-20") ];
     headers := hdrs;
     data := [];
     timeout := Some TIMEOUT_S |}.

(** The tail of [fetch_soil_properties] that both branches reach. *)
Definition finish_fetch (latitude longitude : float) (response : Response)
  : M pyval :=
  (raise_for_status response ;;
   soil_data <- response_json response ;;
   print (FetchSucceeded latitude longitude) ;;
   ret soil_data)%M.

Definition fetch_soil_properties (latitude longitude : float) : M pyval :=
  try_except
    (o <- get_self ;;
     hdrs <- _get_headers ;;
     response <- send (soil_request o latitude longitude hdrs) ;;
     if status_code response =? 401 then
       ok <- authenticate ;;
       if ok : bool then
         hdrs' <- _get_headers ;;
         response' <- send (soil_request o latitude longitude hdrs') ;;
         finish_fetch latitude longitude response'
       else ret PNone
     else finish_fetch latitude longitude response)%M
    (fun e => print (FetchFailed e) ;; ret PNone)%M.

End Client.

(** The requests of one method in a stretch of the log, in order. *)
Definition requests_of (m : http_method) (l : list event) : list request :=
  omap (fun e => match e with
                 | Request r =>
                     match m, method r with
                     | GET, GET | POST, POST => Some r
                     | _, _ => None
                     end
                 | Print _ => None
                 end) l.

Definition is_print (e : event) : Prop :=
  match e with Print _ => True | Request _ => False end.

(** The headers [_get_headers] builds from a fetcher object. *)
Definition bearer_headers (o : SoilDataFetcher) : list (string * header_value) :=
  [ ("Authorization", HBearer (access_token o));
    ("Content-Type", HStr "application/json") ].

(** The first GET of [fetch_soil_properties] from state [s]. *)
Definition first_get (s : state) (latitude longitude : float) : request :=
  soil_request (self s) latitude longitude (bearer_headers (self s)).

Definition logged (s : state) (e : event) : state :=
  {| self := self s; log := log s ++ [e] |}.

(** The fetcher object after a login that stored [token] at time [now]. *)
Definition with_session (o : SoilDataFetcher) (token : pyval) (now : float)
  : SoilDataFetcher :=
  {| username := username o;
     password := password o;
     base_url := base_url o;
     access_token := token;
     token_expiry := Some (float_add now (Z2SF 3600)) |}.

(** The status is a 4xx or a 5xx, the ones [raise_for_status] rejects. *)
Definition error_status (r : Response) : bool :=
  (400 <=? status_code r) && (status_code r <? 600).

(** The login exchange ends in a [RequestException]: the transport fails,
    the status is a 4xx or a 5xx, or the body is not JSON. *)
Definition login_raises (a : net_result) : Prop :=
  match a with
  | Failure _ => True
  | Answer r => error_status r = true \/ json_body r = None
  end.

(** The failures of the login exchange as the specification lists them:
    a connection error, a status outside 2xx, or a malformed body, a JSON
    body with no [access_token] field included. *)
Definition login_failed (a : net_result) : Prop :=
  match a with
  | Failure _ => True
  | Answer r =>
      ~ (200 <= status_code r < 300) \/
      match json_body r with
      | Some (PDict d) => d !! "access_token" = None
      | _ => True
      end
  end.

(** A service whose login endpoint answers 200 with the JSON object [{}]. *)
Definition W_empty_login : world :=
  {| net := fun _ _ => Answer {| status_code := 200; json_body := Some (PDict ∅) |};
     clock := fun _ => Z2SF 1700000000 |}.

(** A fetcher that holds a session from an earlier login. *)
Definition s_logged_in : state :=
  {| self := {| username := "user";
                password := "secret";
                base_url := "https://api.isda-africa.com";
                access_token := PStr "old-token";
                token_expiry := Some (Z2SF 1700003000) |};
     log := [] |}.

(** How [fetch_soil_properties] ends once it holds the response it will
    judge and has logged up to [s]. *)
Definition judged (latitude longitude : float) (r : Response) (s : state)
  : result pyval * state :=
  if error_status r
  then (Ok PNone, logged s (Print (FetchFailed (HTTPError (status_code r)))))
  else match json_body r with
       | None => (Ok PNone, logged s (Print (FetchFailed JSONDecodeError)))
       | Some v => (Ok v, logged s (Print (FetchSucceeded latitude longitude)))
       end.

(** The error the login exchange ends in, when it ends in one: the
    exception of the transport, the [HTTPError] of a 4xx or 5xx status, or
    the [JSONDecodeError] of a body that is not JSON. *)
Definition login_error (a : net_result) : option request_error :=
  match a with
  | Failure e => Some e
  | Answer r =>
      if error_status r then Some (HTTPError (status_code r))
      else match json_body r with
           | None => Some JSONDecodeError
           | Some _ => None
           end
  end.

(** The ways a lookup fails that the code turns into [None], each with the
    line that names its reason: a transport error on the first GET or on
    the retried one, with the exception raised; a 4xx or 5xx status on the
    response that is judged (the first one unless it is a 401, else the
    retried one), with the [HTTPError] of that status; or a
    re-authentication that returns [False], with the error its login
    exchange ended in. *)
Inductive fetch_failure (W : world) (s : state) (latitude longitude : float)
  : message -> Prop :=
| first_get_transport_error (e : request_error) :
    net W (log s) (first_get s latitude longitude) = Failure e ->
    fetch_failure W s latitude longitude (FetchFailed e)
| first_get_error_status (r : Response) :
    net W (log s) (first_get s latitude longitude) = Answer r ->
    status_code r <> 401 ->
    error_status r = true ->
    fetch_failure W s latitude longitude (FetchFailed (HTTPError (status_code r)))
| reauthentication_failed (r : Response) (e : request_error) :
    net W (log s) (first_get s latitude longitude) = Answer r ->
    status_code r = 401 ->
    fst (authenticate W (logged s (Request (first_get s latitude longitude))))
    = Ok false ->
    login_error (net W (log s ++ [Request (first_get s latitude longitude)])
                   (login_request (self s))) = Some e ->
    fetch_failure W s latitude longitude (AuthFailed e)
| retried_get_transport_error (r : Response) (s2 : state) (e : request_error) :
    net W (log s) (first_get s latitude longitude) = Answer r ->
    status_code r = 401 ->
    authenticate W (logged s (Request (first_get s latitude longitude)))
    = (Ok true, s2) ->
    net W (log s2) (soil_request (self s) latitude longitude (bearer_headers (self s2)))
    = Failure e ->
    fetch_failure W s latitude longitude (FetchFailed e)
| retried_get_error_status (r : Response) (s2 : state) (r2 : Response) :
    net W (log s) (first_get s latitude longitude) = Answer r ->
    status_code r = 401 ->
    authenticate W (logged s (Request (first_get s latitude longitude)))
    = (Ok true, s2) ->
    net W (log s2) (soil_request (self s) latitude longitude (bearer_headers (self s2)))
    = Answer r2 ->
    error_status r2 = true ->
    fetch_failure W s latitude longitude (FetchFailed (HTTPError (status_code r2))).

(** A printed line that names the reason of a failure. *)
Definition is_diagnostic (e : event) : Prop :=
  match e with
  | Print (FetchFailed _) | Print (AuthFailed _) => True
  | _ => False
  end.

(** The coordinates of the workflow script: Kisumu, Kenya. *)
Definition latitude0 : float := Eval vm_compute in float_div (Z2SF 917) (Z2SF 10000).
Definition longitude0 : float := Eval vm_compute in float_div (Z2SF 34768) (Z2SF 1000).

(** A freshly constructed fetcher: no token, nothing logged. *)
Definition s_fresh : state :=
  {| self := new_SoilDataFetcher "user" "secret"; log := [] |}.

Definition nitrogen_payload : pyval :=
  PDict {[ "property" :=
    PDict {[ "nitrogen_total" :=
      PList [ PDict {[ "value" := PDict {[ "value" := PFloat (Z2SF 3) ]} ]} ] ]} ]}.

(** A service that wants a login first: a GET is answered 401 until a
    login POST has been seen and 200 with a payload afterwards; a login is
    answered 200 with a token. *)
Definition W_refresh : world :=
  {| net := fun past r =>
       match method r with
       | POST => Answer {| status_code := 200;
                           json_body := Some (PDict {[ "access_token" := PStr "fresh-token" ]}) |}
       | GET =>
           match requests_of POST past with
           | [] => Answer {| status_code := 401; json_body := None |}
           | _ => Answer {| status_code := 200; json_body := Some nitrogen_payload |}
           end
       end;
     clock := fun _ => Z2SF 1700000000 |}.

(** A service that answers every GET 401 and refuses every login with 403. *)
Definition W_locked_out : world :=
  {| net := fun _ r =>
       match method r with
       | POST => Answer {| status_code := 403; json_body := None |}
       | GET => Answer {| status_code := 401; json_body := None |}
       end;
     clock := fun _ => Z2SF 1700000000 |}.

(** A service that answers the lookup 300 Multiple Choices with a JSON
    body. *)
Definition W_multiple_choices : world :=
  {| net := fun _ _ => Answer {| status_code := 300; json_body := Some nitrogen_payload |};
     clock := fun _ => Z2SF 1700000000 |}.

(** A service that answers every GET 401 and every login 200 with the JSON
    array [[]]. *)
Definition W_array_login : world :=
  {| net := fun _ r =>
       match method r with
       | POST => Answer {| status_code := 200; json_body := Some (PList []) |}
       | GET => Answer {| status_code := 401; json_body := None |}
       end;
     clock := fun _ => Z2SF 1700000000 |}.

(** ** Vocabulary for further properties of the classifier *)

(** The four strings [classify_property] can return. *)
Definition bands : list string := ["Low"; "Moderate"; "High"; "Unknown"].

(** The order of the three bands, [Unknown] last. *)
Definition band_rank (b : string) : nat :=
  if String.eqb b "Low" then 0
  else if String.eqb b "Moderate" then 1
  else if String.eqb b "High" then 2
  else 3.

(** The payload shapes on which [classify_soil_data] fails before it looks
    at any record, with the exception each one meets: a payload that is no
    mapping has no [get]; a null, a number or a boolean under ["property"]
    supports no [in]. *)
Definition scalar (v : pyval) : Prop :=
  match v with
  | PNone | PBool _ | PInt _ | PFloat _ => True
  | PStr _ | PList _ | PDict _ => False
  end.

Inductive bad_shape : pyval -> exn -> Prop :=
| not_a_mapping (soil_data : pyval) :
    (forall d, soil_data <> PDict d) ->
    bad_shape soil_data AttributeError
| property_scalar (d : gmap string pyval) (v : pyval) :
    d !! "property" = Some v ->
    scalar v ->
    bad_shape (PDict d) TypeError.

(** Two states of a raw field that differ at most in what follows the
    first record. *)
Definition same_first (a b : option pyval) : Prop :=
  a = b \/
  exists record rest rest',
    a = Some (PList (record :: rest)) /\ b = Some (PList (record :: rest')).

(** ** Vocabulary for further properties of the client *)

(** The login answer on which [authenticate] goes all the way: a status
    [raise_for_status] lets through and a body that is a JSON object. *)
Definition login_accepted (a : net_result) (d : gmap string pyval) : Prop :=
  exists r, a = Answer r /\ error_status r = false /\ json_body r = Some (PDict d).

(** The login answer on which [token_data.get] fails: a status
    [raise_for_status] lets through and a body that is JSON but no object. *)
Definition login_not_an_object (a : net_result) : Prop :=
  exists r v, a = Answer r /\ error_status r = false /\ json_body r = Some v /\
              forall d, v <> PDict d.

(** [token_data.get("access_token")] on the object [d]. *)
Definition token_of (d : gmap string pyval) : pyval :=
  match d !! "access_token" with
  | Some x => x
  | None => PNone
  end.

(** Two program states that differ at most in the stored expiry. *)
Definition same_but_expiry (s s' : state) : Prop :=
  log s = log s' /\
  username (self s) = username (self s') /\
  password (self s) = password (self s') /\
  base_url (self s) = base_url (self s') /\
  access_token (self s) = access_token (self s').

(** The response [fetch_soil_properties] passes to [raise_for_status]: the
    answer to the first GET unless that is a 401, else the answer to the
    GET retried after a login that returned [True]. *)
Inductive judged_response (W : world) (s : state) (latitude longitude : float)
  : Response -> Prop :=
| judged_first (r : Response) :
    net W (log s) (first_get s latitude longitude) = Answer r ->
    status_code r <> 401 ->
    judged_response W s latitude longitude r
| judged_retried (r : Response) (s2 : state) (r2 : Response) :
    net W (log s) (first_get s latitude longitude) = Answer r ->
    status_code r = 401 ->
    authenticate W (logged s (Request (first_get s latitude longitude)))
    = (Ok true, s2) ->
    net W (log s2) (soil_request (self s) latitude longitude (bearer_headers (self s2)))
    = Answer r2 ->
    judged_response W s latitude longitude r2.

(** ** FertilizerRecommender *)

(** One line of the soil analysis in the prompt: the two values the
    f-string interpolates for a nutrient. *)
Record soil_line := {
  nutrient : string;
  shown_value : pyval;
  shown_classification : string
}.

(** The prompt, as the four lines of values it interpolates; the rest of
    its text is fixed. *)
Definition prompt : Type := list soil_line.

(** The Gemini model: [generate_content(prompt)] followed by
    [response.text] gives a text, or raises an [Exception] of which only
    [str(e)] is used. *)
Record FertilizerRecommender := { model : prompt -> string + string }.

(** [classified_soil.get(name, {}).get('value', 'N/A')] and
    [classified_soil.get(name, {}).get('classification', 'N/A')]. *)
Definition soil_line_of (classified_soil : gmap string entry) (name : string)
  : soil_line :=
  {| nutrient := name;
     shown_value := match classified_soil !! name with
                    | Some e => value e
                    | None => PStr "N/A"
                    end;
     shown_classification := match classified_soil !! name with
                             | Some e => classification e
                             | None => "N/A"
                             end |}.

Definition build_prompt (classified_soil : gmap string entry) : prompt :=
  [ soil_line_of classified_soil "nitrogen";
    soil_line_of classified_soil "phosphorus";
    soil_line_of classified_soil "potassium";
    soil_line_of classified_soil "ph" ].

Definition generate_recommendation (recommender : FertilizerRecommender)
    (classified_soil : gmap string entry) : string :=
  match model recommender (build_prompt classified_soil) with
  | inl text => text
  | inr e => "Error generating recommendation: " +:+ e
  end.

(** ** main *)

(** What the workflow runs against: the environment variables, the soil
    service with its clock, and the Gemini model a given API key gives
    access to. *)
Record app_world := {
  getenv : string -> option string;
  service : world;
  genai : string -> prompt -> string + string
}.

(** [FertilizerRecommender.__init__]: [genai.configure] and
    [GenerativeModel] record the key and the model name and do nothing
    else; the model that answers is the one the key gives access to. *)
Definition new_FertilizerRecommender (A : app_world) (api_key : string)
  : FertilizerRecommender :=
  {| model := genai A api_key |}.

(** The lines [main] prints, with the values they interpolate; a nutrient
    is printed capitalized. *)
Inductive main_line :=
| Title
| Rule (c : string) (n : nat)
| MissingVariables
| RequiredVariables
| FetchingFor (latitude longitude : float)
| TaskA
| FetchFailedExiting
| Classifying
| ClassifiedHeading
| ClassifiedLine (nutrient : string) (value : pyval) (classification : string)
| TaskB
| RecommendationHeading
| Recommendation (text : string).

(** What a run of [main] does, in order: its own lines, the effects of the
    fetcher, and the call of the model. *)
Inductive main_event :=
| Printed (l : main_line)
| Fetcher (e : event)
| Generate (api_key : string) (p : prompt).

(** The three variables when [all([...])] holds of them: each is set and
    not empty. *)
Definition credentials (A : app_world) : option (string * string * string) :=
  match getenv A "ISDA_USERNAME", getenv A "ISDA_PASSWORD", getenv A "GEMINI_API_KEY" with
  | Some u, Some p, Some k =>
      if negb (String.length u =? 0)%nat && negb (String.length p =? 0)%nat
         && negb (String.length k =? 0)%nat
      then Some (u, p, k)
      else None
  | _, _, _ => None
  end.

(** [classified_soil.items()]: a dict keeps insertion order, and the
    classifier inserts in the order of [property_mapping], each canonical
    name at most once. *)
Definition items (classified_soil : gmap string entry) : list (string * entry) :=
  omap (fun c => match classified_soil !! c with
                 | Some e => Some (c, e)
                 | None => None
                 end) class_names.

Section Main.

Variable float_of_str : string -> option float.
Variable A : app_world.

Definition main : result unit * list main_event :=
  let out := [Printed Title; Printed (Rule "=" 50)] in
  match credentials A with
  | None => (Ok tt, out ++ [Printed MissingVariables; Printed RequiredVariables])
  | Some (isda_username, isda_password, gemini_api_key) =>
      let latitude := latitude0 in
      let longitude := longitude0 in
      let out := out ++ [Printed (FetchingFor latitude longitude); Printed TaskA] in
      let soil_fetcher := new_SoilDataFetcher isda_username isda_password in
      let '(fetched, s) :=
        fetch_soil_properties (service A) latitude longitude
          {| self := soil_fetcher; log := [] |} in
      let out := out ++ map Fetcher (log s) in
      match fetched with
      | Raise e => (Raise e, out)
      | Ok soil_data =>
          if negb (py_truthy soil_data)
          then (Ok tt, out ++ [Printed FetchFailedExiting])
          else
            let out := out ++ [Printed Classifying] in
            match classify_soil_data float_of_str soil_data with
            | Raise e => (Raise e, out)
            | Ok classified_soil =>
                let out :=
                  out ++ [Printed ClassifiedHeading]
                      ++ map (fun '(nutrient, data) =>
                                Printed (ClassifiedLine nutrient (value data)
                                           (classification data)))
                           (items classified_soil)
                      ++ [Printed TaskB] in
                let recommender := new_FertilizerRecommender A gemini_api_key in
                let recommendation :=
                  generate_recommendation recommender classified_soil in
                (Ok tt,
                 out ++ [Generate gemini_api_key (build_prompt classified_soil);
                         Printed RecommendationHeading;
                         Printed (Rule "-" 30);
                         Printed (Recommendation recommendation)])
            end
      end
  end.

End Main.

(** The effects of the fetcher in a run of [main], in order. *)
Definition fetcher_events (trace : list main_event) : list event :=
  omap (fun x => match x with Fetcher e => Some e | _ => None end) trace.

(** The calls of the model in a run of [main], in order. *)
Definition generations (trace : list main_event) : list (string * prompt) :=
  omap (fun x => match x with Generate k p => Some (k, p) | _ => None end) trace.

(** One of the three variables is unset or empty. *)
Definition variable_missing (A : app_world) : Prop :=
  exists name,
    name ∈ ["ISDA_USERNAME"; "ISDA_PASSWORD"; "GEMINI_API_KEY"] /\
    (getenv A name = None \/ getenv A name = Some "").

(** The state [main] starts the fetcher in. *)
Definition s_main (isda_username isda_password : string) : state :=
  {| self := new_SoilDataFetcher isda_username isda_password; log := [] |}.

(** An environment with the three variables set, in front of the service
    [W] and a model that answers every prompt with the same text. *)
Definition A_configured (W : world) : app_world :=
  {| getenv := fun name =>
       if String.eqb name "ISDA_USERNAME" then Some "user"
       else if String.eqb name "ISDA_PASSWORD" then Some "secret"
       else if String.eqb name "GEMINI_API_KEY" then Some "key"
       else None;
     service := W;
     genai := fun _ _ => inl "Apply urea." |}.

(** The same with the API key left empty. *)
Definition A_no_key (W : world) : app_world :=
  {| getenv := fun name =>
       if String.eqb name "ISDA_USERNAME" then Some "user"
       else if String.eqb name "ISDA_PASSWORD" then Some "secret"
       else if String.eqb name "GEMINI_API_KEY" then Some ""
       else None;
     service := W;
     genai := fun _ _ => inl "Apply urea." |}.

(** A service that answers every request 200 with the JSON array [[1]]. *)
Definition W_array_payload : world :=
  {| net := fun _ _ => Answer {| status_code := 200; json_body := Some (PList [PInt 1]) |};
     clock := fun _ => Z2SF 1700000000 |}.

(** Two payloads that differ in a second depth band only. *)
Definition payload_one_depth : pyval :=
  PDict {[ "property" := PDict {[ "ph" := measurement (PInt 6) ]} ]}.

Definition payload_two_depths : pyval :=
  PDict {[ "property" :=
    PDict {[ "ph" := PList [ PDict {[ "value" := PDict {[ "value" := PInt 6 ]} ]};
                             PDict {[ "value" := PDict {[ "value" := PInt 9 ]} ]} ] ]} ]}.

(** The largest ints not above the low and the high threshold of each
    property. *)
Definition int_cutoffs : list (string * Z * Z) :=
  [ ("nitrogen", 1, 5); ("phosphorus", 10, 50); ("potassium", 39, 195); ("ph", 5, 7) ].

(** The band of an int by those cutoffs. *)
Definition band_of_int (lo hi z : Z) : string :=
  if z <=? lo then "Low" else if z <=? hi then "Moderate" else "High".

(** The positive finite number [T] lies between the ints [c] and [c + 1]:
    at or above the first, strictly below the second. *)
Definition cuts_at (T : float) (c : positive) : Prop :=
  Zpos c + 1 < 2 ^ 53 /\
  float_leb (Z2SF (Zpos c)) T = true /\
  float_ltb T (Z2SF (Zpos c + 1)) = true /\
  exists m e, T = S754_finite false m e.

(** ** Order facts on binary64 numbers *)

Lemma SFcompare_antisym (a b : float) :
  SFcompare b a = option_map CompOpp (SFcompare a b).
Proof.
  destruct a as [sa|sa| |sa ma ea], b as [sb|sb| |sb mb eb]; simpl;
    try reflexivity; try (destruct sa; reflexivity); try (destruct sb; reflexivity);
    try (destruct sa, sb; reflexivity).
  destruct sa, sb; try reflexivity; f_equal;
    rewrite (Z.compare_antisym ea eb); destruct (ea ?= eb) eqn:E; simpl; try reflexivity;
    change (Pos.compare_cont Eq mb ma) with (Pos.compare mb ma);
    change (Pos.compare_cont Eq ma mb) with (Pos.compare ma mb);
    rewrite (Pos.compare_antisym ma mb); destruct (ma ?= mb)%positive; reflexivity.
Qed.

Lemma float_ltb_not_leb (a b : float) :
  float_ltb a b = true -> float_leb b a = false.
Proof.
  unfold float_ltb, float_leb, SFltb, SFleb.
  rewrite (SFcompare_antisym a b).
  destruct (SFcompare a b) as [[]|]; simpl; congruence.
Qed.

Ltac lex_order :=
  repeat match goal with
    | |- context [(?x ?= ?y)%Z] => destruct (Z.compare_spec x y)
    | |- context [Pos.compare_cont Eq ?x ?y] =>
        change (Pos.compare_cont Eq x y) with (Pos.compare x y);
        destruct (Pos.compare_spec x y)
    end; simpl; try congruence; try lia.

Lemma float_leb_trans (a b c : float) :
  float_leb a b = true -> float_leb b c = true -> float_leb a c = true.
Proof.
  unfold float_leb, SFleb.
  destruct a as [sa|sa| |sa ma ea], b as [sb|sb| |sb mb eb], c as [sc|sc| |sc mc ec];
    simpl; try congruence;
    try (destruct sa; simpl; congruence); try (destruct sb; simpl; congruence);
    try (destruct sc; simpl; congruence);
    try (destruct sa, sb; simpl; congruence); try (destruct sb, sc; simpl; congruence);
    try (destruct sa, sc; simpl; congruence);
    try (destruct sa, sb, sc; simpl; congruence).
  destruct sa, sb, sc; simpl; try congruence; lex_order.
Qed.


(** ** The classifier: thresholds *)

(** The literals are the correctly rounded quotients of the decimals. *)
Lemma literals_nearest :
  lit_1_5 = float_div (Z2SF 15) (Z2SF 10) /\
  lit_5_0 = Z2SF 5 /\
  lit_5_3 = float_div (Z2SF 53) (Z2SF 10) /\
  lit_7_3 = float_div (Z2SF 73) (Z2SF 10) /\
  lit_5_01 = float_div (Z2SF 501) (Z2SF 100).
Proof. vm_compute. repeat split; reflexivity. Qed.

Lemma threshold_table_lookup (name : string) (lo hi : float) :
  (name, lo, hi) ∈ threshold_table ->
  lower name = name /\
  exists t, THRESHOLDS !! name = Some t /\
            num_as_float (low t) = lo /\ num_as_float (high t) = hi /\
            float_leb lo hi = true.
Proof.
  unfold threshold_table. intros H.
  repeat (apply elem_of_cons in H as [H|H];
          [ injection H as -> -> ->; split; [reflexivity|];
            eexists; split; [vm_compute; reflexivity|];
            repeat split; vm_compute; reflexivity | ]).
  apply elem_of_nil in H. contradiction.
Qed.

(** For each of the four recognized properties and every value that
    [float()] turns into the number [v]: [classify_property] answers Low
    when [v <= low], Moderate when [low < v <= high], High when
    [high < v], with the thresholds nitrogen 1.5/5.0, phosphorus 10/50,
    potassium 39/195 and ph 5.3/7.3; a value on a boundary is in the lower
    band. *)
Theorem classify_property_bands
    (float_of_str : string -> option float)
    (name : string) (lo hi : float) (value : pyval) (v : float) :
  (name, lo, hi) ∈ threshold_table ->
  py_float float_of_str value = Ok v ->
  (float_leb v lo = true ->
     classify_property float_of_str value name = Ok "Low") /\
  (float_ltb lo v = true -> float_leb v hi = true ->
     classify_property float_of_str value name = Ok "Moderate") /\
  (float_ltb hi v = true ->
     classify_property float_of_str value name = Ok "High").
Proof.
  intros Htab Hv.
  destruct (threshold_table_lookup _ _ _ Htab) as (Hl & t & Ht & Hlo & Hhi & Hle).
  unfold classify_property, float_le_num.
  rewrite Hl, Ht, Hv, Hlo, Hhi.
  split; [|split].
  - intros ->. reflexivity.
  - intros Hlt ->. rewrite (float_ltb_not_leb _ _ Hlt). reflexivity.
  - intros Hlt.
    pose proof (float_ltb_not_leb _ _ Hlt) as Hhi'.
    destruct (float_leb v lo) eqn:E.
    + pose proof (float_leb_trans _ _ _ E Hle). congruence.
    + rewrite Hhi'. reflexivity.
Qed.

(** A value on a threshold falls in the lower band, for every row of the
    table. *)
Lemma classify_property_boundaries
    (float_of_str : string -> option float) (name : string) (lo hi : float) :
  (name, lo, hi) ∈ threshold_table ->
  classify_property float_of_str (PFloat lo) name = Ok "Low" /\
  classify_property float_of_str (PFloat hi) name = Ok "Moderate".
Proof.
  unfold threshold_table. intros H.
  repeat (apply elem_of_cons in H as [H|H];
          [injection H as -> -> ->; split; vm_compute; reflexivity|]).
  apply elem_of_nil in H. contradiction.
Qed.

(** The two boundary runs of the specification: 5.0 is Moderate for
    nitrogen, 5.01 is High. *)
Lemma classify_property_bands_witness :
  classify_property no_parse (PFloat lit_5_0) "nitrogen" = Ok "Moderate" /\
  classify_property no_parse (PFloat lit_5_01) "nitrogen" = Ok "High" /\
  classify_property no_parse (PInt 60) "phosphorus" = Ok "High" /\
  classify_property no_parse (PInt 10) "phosphorus" = Ok "Low".
Proof.
  split; [|split; [|split]].
  - apply (classify_property_bands no_parse "nitrogen" lit_1_5 lit_5_0
             (PFloat lit_5_0) lit_5_0).
    + unfold threshold_table. apply elem_of_cons. left. reflexivity.
    + reflexivity.
    + vm_compute. reflexivity.
    + vm_compute. reflexivity.
  - apply (classify_property_bands no_parse "nitrogen" lit_1_5 lit_5_0
             (PFloat lit_5_01) lit_5_01).
    + unfold threshold_table. apply elem_of_cons. left. reflexivity.
    + reflexivity.
    + vm_compute. reflexivity.
  - apply (classify_property_bands no_parse "phosphorus" (Z2SF 10) (Z2SF 50)
             (PInt 60) (Z2SF 60)).
    + unfold threshold_table. repeat constructor.
    + vm_compute. reflexivity.
    + vm_compute. reflexivity.
  - apply (classify_property_bands no_parse "phosphorus" (Z2SF 10) (Z2SF 50)
             (PInt 10) (Z2SF 10)).
    + unfold threshold_table. repeat constructor.
    + vm_compute. reflexivity.
    + vm_compute. reflexivity.
Defined.

(** C1, where the code departs from it: an int beyond the range of
    binary64 lies above every high threshold, yet for each of the four
    properties [classify_property] raises the [OverflowError] of [float()]
    instead of answering ["High"]. *)
Theorem classify_property_huge_int (float_of_str : string -> option float) :
  195 < huge_int /\
  classify_property float_of_str (PInt huge_int) "nitrogen" = Raise OverflowError /\
  classify_property float_of_str (PInt huge_int) "phosphorus" = Raise OverflowError /\
  classify_property float_of_str (PInt huge_int) "potassium" = Raise OverflowError /\
  classify_property float_of_str (PInt huge_int) "ph" = Raise OverflowError.
Proof. repeat split; vm_compute; reflexivity. Qed.

(** ** The log *)

Lemma requests_of_app (m : http_method) (l1 l2 : list event) :
  requests_of m (l1 ++ l2) = requests_of m l1 ++ requests_of m l2.
Proof. apply omap_app. Qed.

Lemma requests_of_prints (m : http_method) (l : list event) :
  Forall is_print l -> requests_of m l = [].
Proof.
  induction 1 as [|e l He _ IH]; [reflexivity|].
  destruct e; [contradiction|]. exact IH.
Qed.

Lemma judged_log (latitude longitude : float) (r : Response) (s : state) :
  exists m, log (snd (judged latitude longitude r s)) = log s ++ [Print m].
Proof.
  unfold judged. destruct (error_status r); [eexists; reflexivity|].
  destruct (json_body r); eexists; reflexivity.
Qed.

(** ** The client: authenticate *)

Section ClientFacts.

Variable W : world.

(** What one call of [authenticate] does, by the answer of the login
    endpoint. *)
Lemma authenticate_run (s : state) :
  authenticate W s =
    let s1 := logged s (Request (login_request (self s))) in
    match net W (log s) (login_request (self s)) with
    | Failure e => (Ok false, logged s1 (Print (AuthFailed e)))
    | Answer r =>
        if error_status r
        then (Ok false, logged s1 (Print (AuthFailed (HTTPError (status_code r)))))
        else match json_body r with
             | None => (Ok false, logged s1 (Print (AuthFailed JSONDecodeError)))
             | Some (PDict d) =>
                 (Ok true,
                  {| self := with_session (self s)
                               (match d !! "access_token" with
                                | Some x => x
                                | None => PNone
                                end)
                               (clock W (log s1));
                     log := log s1 ++ [Print AuthSucceeded] |})
             | Some _ => (Raise AttributeError, s1)
             end
    end.
Proof.
  unfold authenticate, try_except, bind, get_self, send, raise_for_status,
    response_json, error_status, logged.
  simpl.
  destruct (net W (log s) (login_request (self s))) as [r|e]; [|reflexivity].
  destruct ((400 <=? status_code r) && (status_code r <? 600)); [reflexivity|].
  simpl. destruct (json_body r) as [[]|]; reflexivity.
Qed.

(** Every call of [authenticate] logs its login POST first and only
    printed lines after it. *)
Lemma authenticate_log (s : state) :
  exists tail,
    log (snd (authenticate W s))
    = log s ++ Request (login_request (self s)) :: tail /\
    Forall is_print tail.
Proof.
  rewrite authenticate_run. simpl.
  destruct (net W (log s) (login_request (self s))) as [r|e].
  - destruct (error_status r).
    + eexists. simpl. rewrite <- app_assoc. split; [reflexivity|].
      repeat constructor.
    + destruct (json_body r) as [[]|]; eexists; simpl;
        rewrite <- ?app_assoc; (split; [try reflexivity|]);
        try (repeat constructor); rewrite ?app_nil_r; reflexivity.
  - eexists. simpl. rewrite <- app_assoc. split; [reflexivity|].
    repeat constructor.
Qed.

(** C3, as the code has it. When the login exchange ends in a
    [RequestException] (a transport error, a 4xx or 5xx status, or a body
    that is not JSON), [authenticate] returns [False] and the fetcher
    object, so the stored token and its expiry, is what it was before the
    call. *)
Theorem authenticate_failure_keeps_session (s : state) :
  login_raises (net W (log s) (login_request (self s))) ->
  fst (authenticate W s) = Ok false /\
  self (snd (authenticate W s)) = self s.
Proof.
  rewrite authenticate_run. simpl.
  destruct (net W (log s) (login_request (self s))) as [r|e]; simpl.
  - intros [H|H]; rewrite H; [split; reflexivity|].
    destruct (error_status r); split; reflexivity.
  - intros _. split; reflexivity.
Qed.

Lemma authenticate_not_request_exception (s : state) (e : request_error) :
  fst (authenticate W s) <> Raise (RequestException e).
Proof.
  rewrite authenticate_run. simpl.
  destruct (net W (log s) (login_request (self s))) as [r|e'];
    [|simpl; discriminate].
  destruct (error_status r); [simpl; discriminate|].
  destruct (json_body r) as [[]|]; simpl; discriminate.
Qed.

(** ** The client: fetch_soil_properties *)

(** What one call of [fetch_soil_properties] does, by the answers of the
    service. *)
Lemma fetch_run (s : state) (latitude longitude : float) :
  fetch_soil_properties W latitude longitude s =
    let g := first_get s latitude longitude in
    let s1 := logged s (Request g) in
    match net W (log s) g with
    | Failure e => (Ok PNone, logged s1 (Print (FetchFailed e)))
    | Answer r =>
        if status_code r =? 401 then
          match authenticate W s1 with
          | (Ok true, s2) =>
              let g2 := soil_request (self s) latitude longitude
                          (bearer_headers (self s2)) in
              let s3 := logged s2 (Request g2) in
              match net W (log s2) g2 with
              | Failure e => (Ok PNone, logged s3 (Print (FetchFailed e)))
              | Answer r2 => judged latitude longitude r2 s3
              end
          | (Ok false, s2) => (Ok PNone, s2)
          | (Raise e, s2) => (Raise e, s2)
          end
        else judged latitude longitude r s1
    end.
Proof.
  unfold fetch_soil_properties, try_except, bind, get_self, _get_headers, send,
    first_get, bearer_headers, ret. simpl.
  destruct (net W (log s) _) as [r|e]; [|reflexivity].
  fold (logged s (Request (soil_request (self s) latitude longitude
          [("Authorization", HBearer (access_token (self s)));
           ("Content-Type", HStr "application/json")]))).
  set (s1 := logged s _).
  assert (Hj : forall r' s',
    match finish_fetch latitude longitude r' s' with
    | (Raise (RequestException e), s'') =>
        bind (print (FetchFailed e)) (fun _ s0 => (Ok PNone, s0)) s''
    | x => x
    end = judged latitude longitude r' s').
  { intros r' s'. unfold finish_fetch, judged, raise_for_status, response_json,
      bind, error_status.
    destruct ((400 <=? status_code r') && (status_code r' <? 600)); [reflexivity|].
    simpl. destruct (json_body r'); reflexivity. }
  destruct (status_code r =? 401); [|apply Hj].
  pose proof (authenticate_not_request_exception s1) as Hne.
  destruct (authenticate W s1) as [[[|]|e] s2]; simpl in *.
  - destruct (net W (log s2) _) as [r2|e2]; [apply Hj|reflexivity].
  - reflexivity.
  - destruct e; try reflexivity. exfalso. eapply Hne. reflexivity.
Qed.

Lemma retry_log (latitude longitude : float) (s2 : state) (g2 : request) :
  exists m,
    log (snd (match net W (log s2) g2 with
              | Answer r2 => judged latitude longitude r2 (logged s2 (Request g2))
              | Failure e =>
                  (Ok PNone, logged (logged s2 (Request g2)) (Print (FetchFailed e)))
              end)) = log s2 ++ [Request g2; Print m].
Proof.
  destruct (net W (log s2) g2) as [r2|e2].
  - destruct (judged_log latitude longitude r2 (logged s2 (Request g2))) as [m Hm].
    exists m. rewrite Hm. simpl. rewrite <- app_assoc. reflexivity.
  - eexists. simpl. rewrite <- app_assoc. reflexivity.
Qed.

(** Every call logs its GET first; unless that GET is answered 401, only
    printed lines follow. *)
Lemma fetch_log_extends (s : state) (latitude longitude : float) :
  exists rest,
    log (snd (fetch_soil_properties W latitude longitude s))
    = log s ++ Request (first_get s latitude longitude) :: rest /\
    ((forall r, net W (log s) (first_get s latitude longitude) = Answer r ->
                status_code r <> 401) ->
     Forall is_print rest).
Proof.
  rewrite fetch_run. simpl.
  set (g := first_get s latitude longitude).
  destruct (net W (log s) g) as [r|e].
  - destruct (status_code r =? 401) eqn:E.
    + apply Z.eqb_eq in E.
      destruct (authenticate_log (logged s (Request g))) as (tail & Hlog & Hpr).
      destruct (authenticate W (logged s (Request g))) as [[[|]|e] s2]; simpl in *.
      * destruct (retry_log latitude longitude s2
                    (soil_request (self s) latitude longitude (bearer_headers (self s2))))
          as [m Hm].
        eexists. split.
        -- rewrite Hm, Hlog. rewrite <- !app_assoc. reflexivity.
        -- intros H. destruct (H r eq_refl E).
      * eexists. split.
        -- rewrite Hlog. rewrite <- !app_assoc. reflexivity.
        -- intros H. destruct (H r eq_refl E).
      * eexists. split.
        -- rewrite Hlog. rewrite <- !app_assoc. reflexivity.
        -- intros H. destruct (H r eq_refl E).
    + destruct (judged_log latitude longitude r (logged s (Request g))) as [m Hm].
      exists [Print m]. split.
      * rewrite Hm. simpl. rewrite <- app_assoc. reflexivity.
      * intros _. repeat constructor.
  - eexists. split.
    + simpl. rewrite <- app_assoc. reflexivity.
    + intros _. repeat constructor.
Qed.


(** C7. The first thing a call of [fetch_soil_properties] does is the
    GET, sent with the token that is stored at that moment, whatever it
    is; a login POST appears in what follows only when that GET was
    answered 401. *)
Theorem fetch_first_event_is_get (s : state) (latitude longitude : float) :
  exists rest,
    log (snd (fetch_soil_properties W latitude longitude s))
    = log s ++ Request (first_get s latitude longitude) :: rest /\
    method (first_get s latitude longitude) = GET /\
    headers (first_get s latitude longitude)
    = [ ("Authorization", HBearer (access_token (self s)));
        ("Content-Type", HStr "application/json") ] /\
    (requests_of POST rest <> [] ->
     exists resp,
       net W (log s) (first_get s latitude longitude) = Answer resp /\
       status_code resp = 401).
Proof.
  destruct (fetch_log_extends s latitude longitude) as (rest & Hlog & Hpr).
  exists rest. repeat split; [exact Hlog|].
  intros Hpost.
  destruct (net W (log s) (first_get s latitude longitude)) as [r|e] eqn:Hnet.
  - destruct (Z.eq_dec (status_code r) 401) as [E|E]; [exists r; split; trivial|].
    destruct Hpost. apply requests_of_prints, Hpr.
    intros r' [= <-]. exact E.
  - destruct Hpost. apply requests_of_prints, Hpr. intros r' [=].
Qed.

(** A call of [authenticate] that returns [False] has printed why and
    has left the fetcher object alone. *)
Lemma authenticate_false_diagnostic (s : state) :
  fst (authenticate W s) = Ok false ->
  exists e,
    snd (authenticate W s)
    = logged (logged s (Request (login_request (self s)))) (Print (AuthFailed e)).
Proof.
  rewrite authenticate_run. simpl.
  destruct (net W (log s) (login_request (self s))) as [r|e]; [|eexists; reflexivity].
  destruct (error_status r); [eexists; reflexivity|].
  destruct (json_body r) as [[]|]; simpl; try discriminate. eexists; reflexivity.
Qed.

Lemma judged_error_status (latitude longitude : float) (r : Response) (s : state) :
  error_status r = true ->
  judged latitude longitude r s
  = (Ok PNone, logged s (Print (FetchFailed (HTTPError (status_code r))))).
Proof. unfold judged. intros ->. reflexivity. Qed.

(** A call of [authenticate] returns [False] exactly when its login
    exchange ends in an error, and the line it prints names that error. *)
Lemma authenticate_false_login_error (s : state) :
  fst (authenticate W s) = Ok false <->
  exists e, login_error (net W (log s) (login_request (self s))) = Some e.
Proof.
  rewrite authenticate_run. unfold login_error. simpl.
  destruct (net W (log s) (login_request (self s))) as [r|e]; [|split; eauto].
  destruct (error_status r); [split; eauto|].
  destruct (json_body r) as [[]|]; simpl; split; eauto;
    try discriminate; intros [e [=]].
Qed.

Lemma authenticate_login_error (s : state) (e : request_error) :
  login_error (net W (log s) (login_request (self s))) = Some e ->
  authenticate W s
  = (Ok false,
     logged (logged s (Request (login_request (self s)))) (Print (AuthFailed e))).
Proof.
  rewrite authenticate_run. unfold login_error. simpl.
  destruct (net W (log s) (login_request (self s))) as [r|e'];
    [|intros [= <-]; reflexivity].
  destruct (error_status r); [intros [= <-]; reflexivity|].
  destruct (json_body r) as [v|]; [discriminate|]. intros [= <-]. reflexivity.
Qed.

(** C8, as the code has it. On a transport error, on a 4xx or 5xx status
    after the single retry opportunity, and on a re-authentication that
    returns [False], [fetch_soil_properties] returns [None], no exception
    leaves it, and the last thing it does is print the line that names the
    reason: the transport error raised, the [HTTPError] of the status
    rejected, or the error the login exchange ended in. *)
Theorem fetch_failure_returns_none
    (s : state) (latitude longitude : float) (m : message) :
  fetch_failure W s latitude longitude m ->
  fst (fetch_soil_properties W latitude longitude s) = Ok PNone /\
  exists before,
    log (snd (fetch_soil_properties W latitude longitude s))
    = log s ++ before ++ [Print m].
Proof.
  rewrite fetch_run. simpl.
  intros [e Hnet | r Hnet Hst Herr | r e Hnet Hst Hauth Herr
         | r s2 e Hnet Hst Hauth Hnet2 | r s2 r2 Hnet Hst Hauth Hnet2 Herr];
    rewrite Hnet.
  - split; [reflexivity|].
    exists [Request (first_get s latitude longitude)].
    simpl. rewrite <- !app_assoc. reflexivity.
  - apply Z.eqb_neq in Hst. rewrite Hst, judged_error_status by exact Herr.
    split; [reflexivity|].
    exists [Request (first_get s latitude longitude)].
    simpl. rewrite <- !app_assoc. reflexivity.
  - rewrite Hst. simpl.
    rewrite (authenticate_login_error
               (logged s (Request (first_get s latitude longitude))) e Herr).
    split; [reflexivity|].
    exists [Request (first_get s latitude longitude); Request (login_request (self s))].
    simpl. rewrite <- !app_assoc. reflexivity.
  - rewrite Hst. simpl. rewrite Hauth, Hnet2.
    destruct (authenticate_log (logged s (Request (first_get s latitude longitude))))
      as (tail & Hlog & _).
    rewrite Hauth in Hlog. simpl in Hlog.
    split; [reflexivity|].
    exists ([Request (first_get s latitude longitude)]
            ++ Request (login_request (self s)) :: tail
            ++ [Request (soil_request (self s) latitude longitude
                           (bearer_headers (self s2)))]).
    simpl. rewrite Hlog, <- !app_assoc. reflexivity.
  - rewrite Hst. simpl. rewrite Hauth, Hnet2, judged_error_status by exact Herr.
    destruct (authenticate_log (logged s (Request (first_get s latitude longitude))))
      as (tail & Hlog & _).
    rewrite Hauth in Hlog. simpl in Hlog.
    split; [reflexivity|].
    exists ([Request (first_get s latitude longitude)]
            ++ Request (login_request (self s)) :: tail
            ++ [Request (soil_request (self s) latitude longitude
                           (bearer_headers (self s2)))]).
    simpl. rewrite Hlog, <- !app_assoc. reflexivity.
Qed.

End ClientFacts.

Lemma authenticate_failure_keeps_session_witness :
  login_raises (net W_locked_out (log s_logged_in) (login_request (self s_logged_in))) /\
  fst (authenticate W_locked_out s_logged_in) = Ok false /\
  self (snd (authenticate W_locked_out s_logged_in)) = self s_logged_in.
Proof.
  assert (H : login_raises
                (net W_locked_out (log s_logged_in) (login_request (self s_logged_in)))).
  { left. reflexivity. }
  split; [exact H|].
  exact (authenticate_failure_keeps_session W_locked_out s_logged_in H).
Defined.

(** The login of [W_empty_login] is a failure in the specification's sense,
    yet [authenticate] reports success and overwrites the stored token
    with [None]. *)
Lemma authenticate_empty_login_run :
  login_failed (net W_empty_login (log s_logged_in) (login_request (self s_logged_in))) /\
  fst (authenticate W_empty_login s_logged_in) = Ok true /\
  access_token (self s_logged_in) = PStr "old-token" /\
  access_token (self (snd (authenticate W_empty_login s_logged_in))) = PNone.
Proof.
  split; [right; reflexivity|].
  rewrite authenticate_run. repeat split; reflexivity.
Qed.

(** C3 as stated fails: not every failure of the login exchange makes
    [authenticate] return [False] with the session untouched. *)
Lemma authenticate_failure_counterexample :
  ~ (forall (W : world) (s : state),
       login_failed (net W (log s) (login_request (self s))) ->
       fst (authenticate W s) = Ok false /\
       access_token (self (snd (authenticate W s))) = access_token (self s) /\
       token_expiry (self (snd (authenticate W s))) = token_expiry (self s)).
Proof.
  intros H.
  destruct (H W_empty_login s_logged_in) as [Hret _].
  - right. reflexivity.
  - rewrite authenticate_run in Hret. discriminate Hret.
Qed.


(** The two runs of the specification's retry tests. *)
Lemma fetch_refresh_run :
  fst (fetch_soil_properties W_refresh latitude0 longitude0 s_fresh) = Ok nitrogen_payload /\
  length (requests_of GET
            (log (snd (fetch_soil_properties W_refresh latitude0 longitude0 s_fresh)))) = 2%nat.
Proof. rewrite fetch_run. split; reflexivity. Qed.

Lemma fetch_locked_out_run :
  fst (fetch_soil_properties W_locked_out latitude0 longitude0 s_fresh) = Ok PNone /\
  length (requests_of GET
            (log (snd (fetch_soil_properties W_locked_out latitude0 longitude0 s_fresh)))) = 1%nat.
Proof. rewrite fetch_run. split; reflexivity. Qed.

Lemma fetch_failure_returns_none_witness :
  fetch_failure W_locked_out s_fresh latitude0 longitude0
    (AuthFailed (HTTPError 403)) /\
  fst (fetch_soil_properties W_locked_out latitude0 longitude0 s_fresh) = Ok PNone /\
  exists before,
    log (snd (fetch_soil_properties W_locked_out latitude0 longitude0 s_fresh))
    = log s_fresh ++ before ++ [Print (AuthFailed (HTTPError 403))].
Proof.
  assert (H : fetch_failure W_locked_out s_fresh latitude0 longitude0
                (AuthFailed (HTTPError 403))).
  { apply (reauthentication_failed W_locked_out s_fresh latitude0 longitude0
             {| status_code := 401; json_body := None |} (HTTPError 403));
      reflexivity. }
  split; [exact H|].
  exact (fetch_failure_returns_none W_locked_out s_fresh latitude0 longitude0
           (AuthFailed (HTTPError 403)) H).
Defined.

(** C8 as stated fails: a status outside 2xx that is neither a 4xx nor a
    5xx is not an error to [raise_for_status], and the body is returned as
    a successful lookup. *)
Lemma fetch_non_2xx_counterexample :
  ~ (forall (W : world) (s : state) (latitude longitude : float) (r : Response),
       net W (log s) (first_get s latitude longitude) = Answer r ->
       status_code r <> 401 ->
       ~ (200 <= status_code r < 300) ->
       fst (fetch_soil_properties W latitude longitude s) = Ok PNone).
Proof.
  intros H.
  specialize (H W_multiple_choices s_fresh latitude0 longitude0
                {| status_code := 300; json_body := Some nitrogen_payload |} eq_refl).
  rewrite fetch_run in H. simpl in H.
  assert (Hr : @Ok pyval nitrogen_payload = Ok PNone).
  { apply H; [discriminate|lia]. }
  discriminate Hr.
Qed.

(** A re-authentication whose login is answered with JSON that is not an
    object: the [AttributeError] of [token_data.get] is no
    [RequestException], so it leaves [authenticate] and
    [fetch_soil_properties] alike. *)
Lemma fetch_array_login_run :
  fst (authenticate W_array_login s_fresh) = Raise AttributeError /\
  fst (fetch_soil_properties W_array_login latitude0 longitude0 s_fresh)
  = Raise AttributeError.
Proof. rewrite fetch_run, authenticate_run. split; reflexivity. Qed.

(** ** The classifier: names and values that cannot be classified *)

Lemma lower_char_idempotent (c : ascii) : lower_char (lower_char c) = lower_char c.
Proof. destruct c as [[] [] [] [] [] [] [] []]; reflexivity. Qed.

Lemma lower_idempotent (s : string) : lower (lower s) = lower s.
Proof.
  induction s as [|c s IH]; [reflexivity|].
  simpl. rewrite lower_char_idempotent, IH. reflexivity.
Qed.

(** C9. [classify_property] reads the property name through [lower] only:
    a name and its lowercase form are classified alike, and ["Nitrogen"]
    and ["PH"] reach the thresholds of ["nitrogen"] and ["ph"]. *)
Theorem classify_property_case_insensitive
    (float_of_str : string -> option float) (value : pyval) (s : string) :
  classify_property float_of_str value s
  = classify_property float_of_str value (lower s) /\
  lower "Nitrogen" = "nitrogen" /\ lower "PH" = "ph" /\
  classify_property float_of_str (PFloat lit_5_0) "Nitrogen" = Ok "Moderate" /\
  classify_property float_of_str (PFloat lit_5_3) "PH" = Ok "Low".
Proof.
  split; [|repeat split; reflexivity].
  unfold classify_property. rewrite lower_idempotent. reflexivity.
Qed.

(** The part of C6 that holds: a name whose lowercase form is no key of
    the table, and a value on which [float()] raises [TypeError] or
    [ValueError], are answered ["Unknown"]. *)
Lemma classify_property_unknown
    (float_of_str : string -> option float) (value : pyval) (name : string) :
  (THRESHOLDS !! lower name = None ->
   classify_property float_of_str value name = Ok "Unknown") /\
  (py_float float_of_str value = Raise TypeError \/
   py_float float_of_str value = Raise ValueError ->
   classify_property float_of_str value name = Ok "Unknown").
Proof.
  unfold classify_property. split.
  - intros ->. reflexivity.
  - destruct (THRESHOLDS !! lower name); [|reflexivity].
    intros [-> | ->]; reflexivity.
Qed.

(** The two runs of the specification: an unknown property, and a string
    that is no number. *)
Lemma classify_property_unknown_runs (float_of_str : string -> option float) :
  classify_property float_of_str (PInt 100) "unknown_property" = Ok "Unknown" /\
  (float_of_str "not-a-number" = None ->
   classify_property float_of_str (PStr "not-a-number") "ph" = Ok "Unknown").
Proof.
  split; [reflexivity|].
  intros H. unfold classify_property, py_float. rewrite H. reflexivity.
Qed.

(** C6, where the code departs from it: an int beyond the binary64 range
    makes [float()] raise [OverflowError], which the handler of
    [classify_property] does not name, so the call raises instead of
    answering ["Unknown"]. *)
Theorem classify_property_overflow (float_of_str : string -> option float) :
  py_float float_of_str (PInt huge_int) = Raise OverflowError /\
  classify_property float_of_str (PInt huge_int) "ph" = Raise OverflowError.
Proof. split; vm_compute; reflexivity. Qed.

(** ** The classifier: the profile *)

Section ProfileFacts.

Variable float_of_str : string -> option float.

(** One turn of the loop that does not raise either leaves the profile
    alone, the field being absent or falsy, or files the nested value of
    the first record with its band. *)
Lemma classify_field_cases (soil_data : pyval) (acc acc' : gmap string entry)
    (api_field class_name : string) :
  classify_field float_of_str soil_data acc api_field class_name = Ok acc' ->
  (acc' = acc /\
   (raw_field soil_data api_field = None \/
    exists data, raw_field soil_data api_field = Some data /\ py_truthy data = false))
  \/
  (exists data record v band,
     raw_field soil_data api_field = Some data /\
     py_truthy data = true /\
     py_first data = Ok record /\
     nested_value record = Ok v /\
     classify_property float_of_str v class_name = Ok band /\
     acc' = <[class_name := {| value := v; classification := band |}]> acc).
Proof.
  unfold classify_field, raw_field.
  destruct soil_data as [| | | | | |d]; try discriminate. simpl.
  destruct (d !! "property") as [props|] eqn:Hp; simpl.
  - destruct props as [| | | |str|l|fields]; simpl; try discriminate.
    + destruct (is_substring api_field str); simpl; [discriminate|].
      intros [= <-]. left. auto.
    + destruct (existsb (is_str api_field) l); simpl; [discriminate|].
      intros [= <-]. left. auto.
    + destruct (fields !! api_field) as [data|] eqn:Hf; simpl.
      2:{ intros [= <-]. left. auto. }
      rewrite ?bool_decide_eq_true_2 by eauto. simpl.
      destruct (py_truthy data) eqn:Ht; simpl.
      2:{ intros [= <-]. left. split; [reflexivity|]. right. eauto. }
      intros H. right.
      assert (Hlen : (n <- py_len data ;; Ok (0 <? n)%nat)%result = Ok true
                     \/ exists e, py_len data = Raise e).
      { destruct data as [|b|z|f|str|l|m]; simpl in *; eauto.
        - destruct str; [discriminate|]. left. reflexivity.
        - destruct l; [discriminate|]. left. reflexivity.
        - left. f_equal. apply Nat.ltb_lt.
          destruct (size m); [discriminate|lia]. }
      destruct Hlen as [Hlen|[e He]]; [|rewrite He in H; discriminate H].
      rewrite Hlen in H. simpl in H.
      destruct (py_first data) as [record|] eqn:Hr; simpl in H; [|discriminate].
      destruct (py_getitem record "value") as [outer|] eqn:Ho; simpl in H; [|discriminate].
      destruct (py_getitem outer "value") as [v|] eqn:Hv; simpl in H; [|discriminate].
      destruct (classify_property float_of_str v class_name) as [band|] eqn:Hb;
        simpl in H; [|discriminate].
      injection H as <-.
      exists data, record, v, band.
      repeat split; try assumption; try reflexivity.
      unfold nested_value. rewrite Ho. exact Hv.
  - rewrite lookup_empty. simpl.
    intros [= <-]. left. auto.
Qed.

Lemma classify_field_omitted_or_filed (soil_data : pyval)
    (acc acc' : gmap string entry) (api_field class_name : string) :
  classify_field float_of_str soil_data acc api_field class_name = Ok acc' ->
  (acc' = acc /\ omitted soil_data api_field) \/
  (exists e, acc' = <[class_name := e]> acc /\
             filed float_of_str soil_data api_field class_name e).
Proof.
  intros H. apply classify_field_cases in H
    as [[-> H] | (data & record & v & band & H1 & H2 & H3 & H4 & H5 & ->)].
  - left. split; [reflexivity|exact H].
  - right. exists {| value := v; classification := band |}.
    split; [reflexivity|]. exists data, record. auto.
Qed.

(** The loop as a whole: under each canonical name the profile it
    returns holds what the turn for that name filed, or what was there
    before when the field was passed over; no other key is touched. *)
Lemma classify_fields_lookup (soil_data : pyval)
    (mapping : list (string * string)) (acc p : gmap string entry) :
  NoDup (map snd mapping) ->
  classify_fields float_of_str soil_data acc mapping = Ok p ->
  (forall f c, (f, c) ∈ mapping ->
     (omitted soil_data f /\ p !! c = acc !! c) \/
     (exists e, filed float_of_str soil_data f c e /\ p !! c = Some e)) /\
  (forall k, k ∉ map snd mapping -> p !! k = acc !! k).
Proof.
  revert acc. induction mapping as [|[f0 c0] rest IH]; intros acc Hnd H.
  - injection H as <-. split; [|reflexivity].
    intros f c Hin. apply elem_of_nil in Hin. contradiction.
  - simpl in H.
    destruct (classify_field float_of_str soil_data acc f0 c0) as [acc1|] eqn:H0;
      simpl in H; [|discriminate].
    apply NoDup_cons in Hnd as [Hc0 Hnd].
    destruct (IH acc1 Hnd H) as [IHin IHout].
    assert (Hother : forall k, k <> c0 -> acc1 !! k = acc !! k).
    { intros k Hk.
      apply classify_field_omitted_or_filed in H0 as [[-> _] | (e & -> & _)];
        [reflexivity|]. apply lookup_insert_ne. congruence. }
    split.
    + intros f c Hin. apply elem_of_cons in Hin as [[= -> ->] | Hin].
      * rewrite (IHout c0 Hc0).
        apply classify_field_omitted_or_filed in H0 as [[-> Ho] | (e & -> & He)].
        -- left. auto.
        -- right. exists e. split; [exact He|]. apply lookup_insert_eq.
      * assert (c <> c0).
        { intros ->. apply Hc0. apply list_elem_of_fmap. exists (f, c0). auto. }
        destruct (IHin f c Hin) as [[Ho Hp] | He]; [|right; exact He].
        left. split; [exact Ho|]. rewrite Hp. auto.
    + intros k Hk. simpl in Hk. apply not_elem_of_cons in Hk as [Hk0 Hk].
      rewrite (IHout k Hk). auto.
Qed.

Lemma class_names_NoDup : NoDup (map snd property_mapping).
Proof.
  apply (bool_decide_unpack _). vm_compute. exact I.
Qed.

(** C5, as the code has it. In the profile that [classify_soil_data]
    returns, when it returns one, a mapped raw
    field that is absent, or present with an empty list, has no entry
    under its canonical name; one that is present with a non-empty list
    has the entry made of its first record's nested value and the band
    of that value. *)
Theorem classify_soil_data_entries (soil_data : pyval) (p : gmap string entry)
    (f c : string) :
  classify_soil_data float_of_str soil_data = Ok p ->
  (f, c) ∈ property_mapping ->
  (raw_field soil_data f = None \/ raw_field soil_data f = Some (PList []) ->
   p !! c = None) /\
  (forall record rest,
     raw_field soil_data f = Some (PList (record :: rest)) ->
     exists v band,
       nested_value record = Ok v /\
       classify_property float_of_str v c = Ok band /\
       p !! c = Some {| value := v; classification := band |}).
Proof.
  intros H Hin.
  destruct (classify_fields_lookup _ _ _ _ class_names_NoDup H) as [Hl _].
  destruct (Hl f c Hin) as [[Ho Hp] | (e & (data & r & Hraw & Ht & Hr & Hv & Hb) & Hp)].
  - split.
    + intros _. rewrite Hp. apply lookup_empty.
    + intros record rest Hraw.
      destruct Ho as [Ho | (data & Ho & Ht)]; rewrite Hraw in Ho; [discriminate|].
      injection Ho as <-. discriminate Ht.
  - split.
    + intros [Hn | Hn]; rewrite Hraw in Hn; [discriminate|].
      injection Hn as ->. discriminate Ht.
    + intros record rest Hraw'. rewrite Hraw in Hraw'. injection Hraw' as ->.
      injection Hr as <-. exists (value e), (classification e).
      destruct e. auto.
Qed.

(** ** The classifier: when it returns *)

Lemma py_float_raises (v : pyval) (e : exn) :
  py_float float_of_str v = Raise e ->
  e = TypeError \/ e = ValueError \/ e = OverflowError.
Proof.
  assert (Hint : forall z, float_of_int z = Raise e -> e = OverflowError).
  { intros z. unfold float_of_int. destruct (Z2SF z); congruence. }
  destruct v as [|b|z|f|str|l|m]; simpl; try (intros [= <-]; auto).
  - intros H. apply Hint in H. auto.
  - intros H. apply Hint in H. auto.
  - destruct (float_of_str str); intros [= <-]. auto.
Qed.

Lemma classify_property_returns (v : pyval) (c : string) :
  py_float float_of_str v <> Raise OverflowError ->
  exists band, classify_property float_of_str v c = Ok band.
Proof.
  intros Hno. unfold classify_property.
  destruct (THRESHOLDS !! lower c) as [t|]; [|eauto].
  destruct (py_float float_of_str v) as [x|e] eqn:Hv.
  - destruct (float_le_num x (low t)); [eauto|].
    destruct (float_le_num x (high t)); eauto.
  - destruct (py_float_raises _ _ Hv) as [-> | [-> | ->]]; eauto. contradiction.
Qed.

(** On a payload that is a mapping, one turn of the loop reads the
    payload through [raw_field] only. *)
Lemma classify_field_raw (soil_data soil_data' : pyval) (acc : gmap string entry)
    (f c : string) :
  payload_mapping soil_data -> payload_mapping soil_data' ->
  raw_field soil_data f = raw_field soil_data' f ->
  classify_field float_of_str soil_data acc f c
  = classify_field float_of_str soil_data' acc f c.
Proof.
  unfold payload_mapping, raw_field, classify_field.
  destruct soil_data as [| | | | | |d], soil_data' as [| | | | | |d'];
    try contradiction. simpl.
  destruct (d !! "property") as [[| | | | | |fields]|],
           (d' !! "property") as [[| | | | | |fields']|];
    try contradiction; intros _ _; simpl; rewrite ?lookup_empty.
  - intros <-. reflexivity.
  - intros ->. reflexivity.
  - intros <-. reflexivity.
  - reflexivity.
Qed.

Lemma classify_fields_raw (soil_data soil_data' : pyval)
    (mapping : list (string * string)) (acc : gmap string entry) :
  payload_mapping soil_data -> payload_mapping soil_data' ->
  (forall f c, (f, c) ∈ mapping -> raw_field soil_data f = raw_field soil_data' f) ->
  classify_fields float_of_str soil_data acc mapping
  = classify_fields float_of_str soil_data' acc mapping.
Proof.
  intros Hm Hm'. revert acc.
  induction mapping as [|[f0 c0] rest IH]; intros acc Hraw; [reflexivity|].
  simpl. rewrite (classify_field_raw soil_data soil_data' acc f0 c0 Hm Hm').
  - destruct (classify_field float_of_str soil_data' acc f0 c0); [|reflexivity].
    simpl. apply IH. intros f c Hin. apply (Hraw f c). apply elem_of_cons. auto.
  - apply (Hraw f0 c0). apply elem_of_cons. auto.
Qed.

(** C10. Two payloads that are mappings and hold the same under the four
    mapped raw fields are classified alike, whatever else they hold; when
    none of the four is there (no ["property"] key, or a mapping under it
    without them) the profile is empty; and no key but the four
    canonical names is ever in a profile. *)
Theorem classify_soil_data_unrecognized (soil_data soil_data' : pyval) :
  payload_mapping soil_data -> payload_mapping soil_data' ->
  (forall f c, (f, c) ∈ property_mapping ->
     raw_field soil_data f = raw_field soil_data' f) ->
  classify_soil_data float_of_str soil_data
  = classify_soil_data float_of_str soil_data' /\
  ((forall f c, (f, c) ∈ property_mapping -> raw_field soil_data f = None) ->
   classify_soil_data float_of_str soil_data = Ok ∅) /\
  (forall p k, classify_soil_data float_of_str soil_data = Ok p ->
               is_Some (p !! k) -> k ∈ class_names).
Proof.
  intros Hm Hm' Hraw. split; [|split].
  - apply classify_fields_raw; assumption.
  - intros Hnone. unfold classify_soil_data.
    rewrite (classify_fields_raw soil_data (PDict ∅) property_mapping ∅ Hm).
    + reflexivity.
    + exact I.
    + intros f c Hin. rewrite (Hnone f c Hin). reflexivity.
  - intros p k Hp Hk.
    destruct (classify_fields_lookup _ _ _ _ class_names_NoDup Hp) as [_ Hout].
    destruct (decide (k ∈ class_names)) as [Hin|Hnin]; [exact Hin|].
    rewrite (Hout k Hnin), lookup_empty in Hk. destruct Hk as [x Hx]. discriminate Hx.
Qed.

Lemma classify_field_returns (soil_data : pyval) (acc : gmap string entry)
    (f c : string) :
  payload_mapping soil_data ->
  well_shaped soil_data f ->
  (forall v, first_value soil_data f = Some v ->
             py_float float_of_str v <> Raise OverflowError) ->
  exists acc', classify_field float_of_str soil_data acc f c = Ok acc'.
Proof.
  unfold payload_mapping, well_shaped, first_value, raw_field, classify_field.
  destruct soil_data as [| | | | | |d]; try contradiction. simpl.
  destruct (d !! "property") as [[| | | | | |fields]|]; try contradiction;
    intros _; simpl; rewrite ?lookup_empty; simpl; [|eauto].
  destruct (fields !! f) as [data|]; simpl; [|eauto].
  intros [Ht | (record & rest & v & -> & Hv)] Hno.
  - rewrite Ht. simpl. eauto.
  - simpl in *. rewrite Hv in Hno.
    destruct (classify_property_returns v c (Hno v eq_refl)) as [band Hb].
    unfold nested_value in Hv.
    destruct (py_getitem record "value") as [outer|]; simpl in *; [|discriminate].
    rewrite Hv. simpl. rewrite Hb. simpl. eauto.
Qed.

Lemma classify_fields_returns (soil_data : pyval)
    (mapping : list (string * string)) (acc : gmap string entry) :
  payload_mapping soil_data ->
  (forall f c, (f, c) ∈ mapping ->
     well_shaped soil_data f /\
     forall v, first_value soil_data f = Some v ->
               py_float float_of_str v <> Raise OverflowError) ->
  exists p, classify_fields float_of_str soil_data acc mapping = Ok p.
Proof.
  intros Hm. revert acc.
  induction mapping as [|[f0 c0] rest IH]; intros acc Hw; simpl; [eauto|].
  destruct (Hw f0 c0) as [Hs Hno]; [apply elem_of_cons; auto|].
  destruct (classify_field_returns soil_data acc f0 c0 Hm Hs Hno) as [acc' ->].
  simpl. apply IH. intros f c Hin. apply (Hw f c). apply elem_of_cons. auto.
Qed.

(** C4, as the code has it. On a payload that is a mapping, with nothing
    or a mapping under ["property"], in which every mapped raw field is
    absent, falsy, or a non-empty list whose first record holds a nested
    value that [float()] does not meet with [OverflowError],
    [classify_soil_data] returns a profile: a field that is absent or
    falsy has no entry, and a value on which [float()] raises [TypeError]
    or [ValueError] is filed with the band ["Unknown"]. *)
Theorem classify_soil_data_returns (soil_data : pyval) :
  payload_mapping soil_data ->
  (forall f c, (f, c) ∈ property_mapping ->
     well_shaped soil_data f /\
     forall v, first_value soil_data f = Some v ->
               py_float float_of_str v <> Raise OverflowError) ->
  exists p,
    classify_soil_data float_of_str soil_data = Ok p /\
    forall f c, (f, c) ∈ property_mapping ->
      (omitted soil_data f -> p !! c = None) /\
      (forall v, first_value soil_data f = Some v ->
         py_float float_of_str v = Raise TypeError \/
         py_float float_of_str v = Raise ValueError ->
         p !! c = Some {| value := v; classification := "Unknown" |}).
Proof.
  intros Hm Hw.
  destruct (classify_fields_returns soil_data property_mapping ∅ Hm Hw) as [p Hp].
  exists p. split; [exact Hp|].
  intros f c Hin.
  destruct (classify_fields_lookup _ _ _ _ class_names_NoDup Hp) as [Hl _].
  destruct (Hl f c Hin) as [[Ho Hpc] | (e & (data & r & Hraw & Ht & Hr & Hv & Hb) & Hpc)].
  - split.
    + intros _. rewrite Hpc. apply lookup_empty.
    + unfold first_value. intros v Hfv _.
      destruct Ho as [Ho | (data & Ho & Ht)]; rewrite Ho in Hfv; [discriminate|].
      destruct data as [| | | | |[|record rest]|]; try discriminate.
  - split.
    + intros [Ho | (data' & Ho & Ht')]; rewrite Hraw in Ho; [discriminate|].
      injection Ho as <-. congruence.
    + unfold first_value. rewrite Hraw. intros v Hfv Hexn.
      destruct data as [| | | | |[|record rest]|]; try discriminate.
      injection Hr as <-. rewrite Hv in Hfv. injection Hfv as <-.
      rewrite Hpc. destruct e as [v band]. simpl in *.
      destruct (classify_property_unknown float_of_str v c) as [_ Hu].
      rewrite (Hu Hexn) in Hb. injection Hb as <-. reflexivity.
Qed.

End ProfileFacts.

(** C4 as stated fails: a first record without the ["value"] key makes
    [classify_soil_data] raise [KeyError]. *)
Lemma classify_soil_data_bare_record_run (float_of_str : string -> option float) :
  classify_soil_data float_of_str payload_bare_record = Raise KeyError.
Proof. vm_compute. reflexivity. Qed.

Lemma classify_soil_data_raises_counterexample :
  ~ (forall (float_of_str : string -> option float) (soil_data : pyval),
       exists p, classify_soil_data float_of_str soil_data = Ok p).
Proof.
  intros H. destruct (H no_parse payload_bare_record) as [p Hp].
  rewrite classify_soil_data_bare_record_run in Hp. discriminate Hp.
Qed.

(** C5 as stated fails: the nitrogen field of [payload_mixed] is present
    with a non-empty sequence whose first record holds a value, yet no
    entry is produced for it, the record of [ph] making the whole call
    raise [KeyError]. *)
Lemma classify_soil_data_mixed_run (float_of_str : string -> option float) :
  raw_field payload_mixed "nitrogen_total" = Some (measurement (PFloat (Z2SF 3))) /\
  classify_soil_data float_of_str payload_mixed = Raise KeyError.
Proof. split; vm_compute; reflexivity. Qed.

Lemma classify_soil_data_entries_counterexample :
  ~ (forall (float_of_str : string -> option float) (soil_data : pyval)
            (f c : string) (record : pyval) (rest : list pyval) (v : pyval),
       (f, c) ∈ property_mapping ->
       raw_field soil_data f = Some (PList (record :: rest)) ->
       nested_value record = Ok v ->
       exists p band,
         classify_soil_data float_of_str soil_data = Ok p /\
         p !! c = Some {| value := v; classification := band |}).
Proof.
  intros H.
  destruct (H no_parse payload_mixed "nitrogen_total" "nitrogen"
              (PDict {[ "value" := PDict {[ "value" := PFloat (Z2SF 3) ]} ]}) []
              (PFloat (Z2SF 3))) as (p & band & Hp & _).
  - unfold property_mapping. repeat constructor.
  - vm_compute. reflexivity.
  - vm_compute. reflexivity.
  - destruct (classify_soil_data_mixed_run no_parse) as [_ Hrun].
    rewrite Hrun in Hp. discriminate Hp.
Qed.

(** ** The classifier: the runs of the specification *)

Lemma classify_soil_data_example_run (float_of_str : string -> option float) :
  classify_soil_data float_of_str payload_example = Ok profile_example.
Proof. vm_compute. reflexivity. Qed.

Lemma classify_soil_data_partial_run :
  classify_soil_data no_parse payload_partial = Ok profile_partial.
Proof. vm_compute. reflexivity. Qed.

Ltac each_mapped_field H :=
  repeat (apply elem_of_cons in H as [H|H]; [injection H as -> ->|]);
  [ | | | | apply elem_of_nil in H; contradiction].

Lemma classify_soil_data_entries_witness :
  classify_soil_data no_parse payload_partial = Ok profile_partial /\
  profile_partial !! "potassium" = None /\
  profile_partial !! "ph" = None /\
  exists v band,
    nested_value (PDict {[ "value" := PDict {[ "value" := PInt 60 ]} ]}) = Ok v /\
    classify_property no_parse v "phosphorus" = Ok band /\
    profile_partial !! "phosphorus" = Some {| value := v; classification := band |}.
Proof.
  pose proof classify_soil_data_partial_run as Hrun.
  split; [exact Hrun|]. split; [|split].
  - apply (classify_soil_data_entries no_parse payload_partial profile_partial
             "potassium_extractable" "potassium" Hrun).
    + unfold property_mapping. apply elem_of_cons. right.
      apply elem_of_cons. right. apply elem_of_cons. left. reflexivity.
    + right. vm_compute. reflexivity.
  - apply (classify_soil_data_entries no_parse payload_partial profile_partial
             "ph" "ph" Hrun).
    + unfold property_mapping. apply elem_of_cons. right.
      apply elem_of_cons. right. apply elem_of_cons. right.
      apply elem_of_cons. left. reflexivity.
    + left. vm_compute. reflexivity.
  - apply (classify_soil_data_entries no_parse payload_partial profile_partial
             "phosphorous_extractable" "phosphorus" Hrun) with (rest := []).
    + unfold property_mapping. apply elem_of_cons. right.
      apply elem_of_cons. left. reflexivity.
    + vm_compute. reflexivity.
Defined.

Lemma classify_soil_data_returns_witness :
  exists p,
    classify_soil_data no_parse payload_partial = Ok p /\
    forall f c, (f, c) ∈ property_mapping ->
      (omitted payload_partial f -> p !! c = None) /\
      (forall v, first_value payload_partial f = Some v ->
         py_float no_parse v = Raise TypeError \/
         py_float no_parse v = Raise ValueError ->
         p !! c = Some {| value := v; classification := "Unknown" |}).
Proof.
  apply (classify_soil_data_returns no_parse payload_partial).
  - vm_compute. exact I.
  - intros f c H. unfold property_mapping in H. each_mapped_field H.
    + split.
      * right. eexists _, _, _. split; vm_compute; reflexivity.
      * intros v Hv. vm_compute in Hv. injection Hv as <-. discriminate.
    + split.
      * right. eexists _, _, _. split; vm_compute; reflexivity.
      * intros v Hv. vm_compute in Hv. injection Hv as <-. vm_compute. discriminate.
    + split.
      * left. reflexivity.
      * intros v Hv. vm_compute in Hv. discriminate Hv.
    + split.
      * exact I.
      * intros v Hv. vm_compute in Hv. discriminate Hv.
Defined.

Lemma classify_soil_data_unrecognized_witness :
  payload_mapping payload_unrecognized /\
  classify_soil_data no_parse payload_unrecognized = Ok ∅.
Proof.
  assert (Hm : payload_mapping payload_unrecognized) by (vm_compute; exact I).
  assert (Hnone : forall f c, (f, c) ∈ property_mapping ->
                    raw_field payload_unrecognized f = None).
  { intros f c H. unfold property_mapping in H. each_mapped_field H;
      vm_compute; reflexivity. }
  split; [exact Hm|].
  destruct (classify_soil_data_unrecognized no_parse payload_unrecognized (PDict ∅))
    as (_ & Hempty & _).
  - exact Hm.
  - exact I.
  - intros f c H. rewrite (Hnone f c H). reflexivity.
  - exact (Hempty Hnone).
Defined.

(** ** Further properties: classify_property *)

(** Whatever it is handed, [classify_property] answers one of the four
    band strings, or raises [OverflowError]; nothing else comes out. *)
Theorem classify_property_range
    (float_of_str : string -> option float) (value : pyval) (name : string) :
  (exists b, b ∈ bands /\ classify_property float_of_str value name = Ok b) \/
  classify_property float_of_str value name = Raise OverflowError.
Proof.
  unfold classify_property, bands.
  destruct (THRESHOLDS !! lower name) as [t|].
  2:{ left. exists "Unknown". split; [repeat constructor|reflexivity]. }
  destruct (py_float float_of_str value) as [v|e] eqn:Hv.
  - left. destruct (float_le_num v (low t)).
    + exists "Low". split; [repeat constructor|reflexivity].
    + destruct (float_le_num v (high t)).
      * exists "Moderate". split; [repeat constructor|reflexivity].
      * exists "High". split; [repeat constructor|reflexivity].
  - destruct (py_float_raises _ _ _ Hv) as [-> | [-> | ->]].
    + left. exists "Unknown". split; [repeat constructor|reflexivity].
    + left. exists "Unknown". split; [repeat constructor|reflexivity].
    + right. reflexivity.
Qed.

(** [classify_property] raises exactly when the name is recognized and the
    value is an int whose nearest binary64 number is an infinity; the
    exception is then [OverflowError].  In particular an unrecognized name
    never raises, the table being consulted before [float()]. *)
Theorem classify_property_raises
    (float_of_str : string -> option float) (value : pyval) (name : string)
    (e : exn) :
  classify_property float_of_str value name = Raise e <->
  e = OverflowError /\
  is_Some (THRESHOLDS !! lower name) /\
  exists z sgn, value = PInt z /\ Z2SF z = S754_infinity sgn.
Proof.
  unfold classify_property. split.
  - destruct (THRESHOLDS !! lower name) as [t|]; [|discriminate].
    destruct (py_float float_of_str value) as [v|e'] eqn:Hv.
    + destruct (float_le_num v (low t)); [discriminate|].
      destruct (float_le_num v (high t)); discriminate.
    + destruct (py_float_raises _ _ _ Hv) as [-> | [-> | ->]]; try discriminate.
      intros [= <-]. split; [reflexivity|]. split; [eauto|].
      destruct value as [|b|z|f|str|l|m]; simpl in Hv; try discriminate.
      * destruct b; vm_compute in Hv; discriminate.
      * unfold float_of_int in Hv.
        destruct (Z2SF z) as [| sgn | |] eqn:Hz; try discriminate. eauto.
      * destruct (float_of_str str); discriminate.
  - intros (-> & [t Ht] & z & sgn & -> & Hz).
    rewrite Ht. simpl. unfold float_of_int. rewrite Hz. reflexivity.
Qed.

(** Classification is monotone: of two values of which [float()] makes
    [v1 <= v2], the first is never put in a higher band than the second. *)
Theorem classify_property_monotone
    (float_of_str : string -> option float) (name : string)
    (value1 value2 : pyval) (v1 v2 : float) (b1 b2 : string) :
  is_Some (THRESHOLDS !! lower name) ->
  py_float float_of_str value1 = Ok v1 ->
  py_float float_of_str value2 = Ok v2 ->
  float_leb v1 v2 = true ->
  classify_property float_of_str value1 name = Ok b1 ->
  classify_property float_of_str value2 name = Ok b2 ->
  (band_rank b1 <= band_rank b2)%nat.
Proof.
  intros [t Ht] H1 H2 Hle. unfold classify_property, float_le_num.
  rewrite Ht, H1, H2.
  destruct (float_leb v2 (num_as_float (low t))) eqn:E2l.
  - rewrite (float_leb_trans _ _ _ Hle E2l). intros [= <-] [= <-]. reflexivity.
  - destruct (float_leb v2 (num_as_float (high t))) eqn:E2h.
    + rewrite (float_leb_trans _ _ _ Hle E2h).
      destruct (float_leb v1 (num_as_float (low t)));
        intros [= <-] [= <-]; vm_compute; lia.
    + destruct (float_leb v1 (num_as_float (low t)));
        [|destruct (float_leb v1 (num_as_float (high t)))];
        intros [= <-] [= <-]; vm_compute; lia.
Qed.

Lemma classify_property_monotone_witness :
  (band_rank "Low" <= band_rank "Moderate")%nat.
Proof.
  apply (classify_property_monotone no_parse "PH" (PInt 4) (PFloat lit_7_3)
           (Z2SF 4) lit_7_3 "Low" "Moderate"
           (ex_intro _ _ eq_refl) eq_refl eq_refl eq_refl eq_refl eq_refl).
Defined.

Lemma THRESHOLDS_records (key : string) (t : thresholds) :
  THRESHOLDS !! key = Some t ->
  t = {| low := NFloat lit_1_5; high := NFloat lit_5_0 |} \/
  t = {| low := NInt 10; high := NInt 50 |} \/
  t = {| low := NInt 39; high := NInt 195 |} \/
  t = {| low := NFloat lit_5_3; high := NFloat lit_7_3 |}.
Proof.
  unfold THRESHOLDS. intros H. apply elem_of_list_to_map_2 in H.
  repeat (apply elem_of_cons in H as [H|H]; [injection H as _ ->; auto|]).
  apply elem_of_nil in H. contradiction.
Qed.

(** Values that are no finite number are classified all the same, for
    every recognized property: a NaN and plus infinity are [High], minus
    infinity is [Low]. *)
Theorem classify_property_non_finite
    (float_of_str : string -> option float) (value : pyval) (name : string)
    (v : float) :
  is_Some (THRESHOLDS !! lower name) ->
  py_float float_of_str value = Ok v ->
  (v = S754_nan -> classify_property float_of_str value name = Ok "High") /\
  (v = S754_infinity false ->
   classify_property float_of_str value name = Ok "High") /\
  (v = S754_infinity true ->
   classify_property float_of_str value name = Ok "Low").
Proof.
  intros [t Ht] Hv. unfold classify_property. rewrite Ht, Hv.
  destruct (THRESHOLDS_records _ _ Ht) as [-> | [-> | [-> | ->]]];
    repeat split; intros ->; reflexivity.
Qed.

Lemma classify_property_non_finite_witness :
  classify_property (fun _ => Some S754_nan) (PStr "nan") "ph" = Ok "High".
Proof.
  destruct (classify_property_non_finite (fun _ => Some S754_nan) (PStr "nan") "ph"
              S754_nan (ex_intro _ _ eq_refl) eq_refl) as [Hnan _].
  exact (Hnan eq_refl).
Defined.

(** ** Further properties: classify_soil_data *)

Lemma classify_property_ok_band
    (float_of_str : string -> option float) (value : pyval) (name b : string) :
  classify_property float_of_str value name = Ok b -> b ∈ bands.
Proof.
  unfold classify_property, bands.
  destruct (THRESHOLDS !! lower name) as [t|]; [|intros [= <-]; repeat constructor].
  destruct (py_float float_of_str value) as [v|e].
  - destruct (float_le_num v (low t)); [intros [= <-]; repeat constructor|].
    destruct (float_le_num v (high t)); intros [= <-]; repeat constructor.
  - destruct e; try discriminate; intros [= <-]; repeat constructor.
Qed.

(** A payload of the wrong shape is not tolerated: one that is no mapping
    makes [classify_soil_data] raise [AttributeError], and a null, a number
    or a boolean under ["property"] makes it raise [TypeError]. *)
Theorem classify_soil_data_bad_shape
    (float_of_str : string -> option float) (soil_data : pyval) (e : exn) :
  bad_shape soil_data e ->
  classify_soil_data float_of_str soil_data = Raise e.
Proof.
  intros [sd Hnd | d v Hp Hsc].
  - destruct sd; try reflexivity. destruct (Hnd d). reflexivity.
  - unfold classify_soil_data. simpl. unfold classify_field. simpl.
    rewrite Hp. destruct v; simpl in *; try contradiction; reflexivity.
Qed.

Lemma classify_soil_data_bad_shape_witness :
  classify_soil_data no_parse (PList [PInt 1]) = Raise AttributeError /\
  classify_soil_data no_parse (PDict {[ "property" := PNone ]}) = Raise TypeError.
Proof.
  split.
  - apply (classify_soil_data_bad_shape no_parse (PList [PInt 1]) AttributeError).
    apply not_a_mapping. discriminate.
  - apply (classify_soil_data_bad_shape no_parse (PDict {[ "property" := PNone ]})
             TypeError).
    apply (property_scalar _ PNone); [reflexivity|exact I].
Defined.

(** In a profile that [classify_soil_data] returns, every key is a
    canonical name and every entry pairs a value with the band
    [classify_property] gives that very value under that name, one of the
    four band strings. *)
Theorem classify_soil_data_entry_consistent
    (float_of_str : string -> option float) (soil_data : pyval)
    (p : gmap string entry) (c : string) (e : entry) :
  classify_soil_data float_of_str soil_data = Ok p ->
  p !! c = Some e ->
  c ∈ class_names /\
  classify_property float_of_str (value e) c = Ok (classification e) /\
  classification e ∈ bands.
Proof.
  intros Hp He.
  destruct (classify_fields_lookup _ _ _ _ _ class_names_NoDup Hp) as [Hin Hout].
  destruct (decide (c ∈ class_names)) as [Hc|Hc].
  2:{ rewrite (Hout c Hc), lookup_empty in He. discriminate He. }
  split; [exact Hc|].
  apply list_elem_of_fmap in Hc as ([f c'] & -> & Hfc). simpl in *.
  destruct (Hin f c' Hfc) as [[_ Hn] | (e' & (data & r & _ & _ & _ & _ & Hb) & He')].
  - rewrite Hn, lookup_empty in He. discriminate He.
  - rewrite He' in He. injection He as <-.
    split; [exact Hb|]. exact (classify_property_ok_band _ _ _ _ Hb).
Qed.

Lemma classify_soil_data_entry_consistent_witness :
  "phosphorus" ∈ class_names /\
  classify_property no_parse (PInt 60) "phosphorus" = Ok "High" /\
  "High" ∈ bands.
Proof.
  exact (classify_soil_data_entry_consistent no_parse payload_partial profile_partial
           "phosphorus" {| value := PInt 60; classification := "High" |}
           classify_soil_data_partial_run eq_refl).
Defined.

Lemma classify_field_same_first
    (float_of_str : string -> option float) (soil_data soil_data' : pyval)
    (acc : gmap string entry) (f c : string) :
  payload_mapping soil_data -> payload_mapping soil_data' ->
  same_first (raw_field soil_data f) (raw_field soil_data' f) ->
  classify_field float_of_str soil_data acc f c
  = classify_field float_of_str soil_data' acc f c.
Proof.
  intros Hm Hm' [Heq | (record & rest & rest' & Ha & Hb)].
  - apply classify_field_raw; assumption.
  - revert Hm Hm' Ha Hb. unfold payload_mapping, raw_field, classify_field.
    destruct soil_data as [| | | | | |d], soil_data' as [| | | | | |d'];
      try contradiction. simpl.
    destruct (d !! "property") as [[| | | | | |fields]|],
             (d' !! "property") as [[| | | | | |fields']|];
      try contradiction; try discriminate; intros _ _; simpl.
    intros -> ->. reflexivity.
Qed.

(** Only the first record of a measurement sequence counts: two payloads
    that are mappings and whose mapped raw fields are equal, or are lists
    with the same first record, are classified alike. *)
Theorem classify_soil_data_first_record
    (float_of_str : string -> option float) (soil_data soil_data' : pyval) :
  payload_mapping soil_data -> payload_mapping soil_data' ->
  (forall f c, (f, c) ∈ property_mapping ->
     same_first (raw_field soil_data f) (raw_field soil_data' f)) ->
  classify_soil_data float_of_str soil_data
  = classify_soil_data float_of_str soil_data'.
Proof.
  intros Hm Hm'. unfold classify_soil_data.
  generalize (∅ : gmap string entry) as acc.
  induction property_mapping as [|[f0 c0] rest IH]; intros acc Hsame; [reflexivity|].
  simpl.
  rewrite (classify_field_same_first float_of_str soil_data soil_data' acc f0 c0 Hm Hm').
  - destruct (classify_field float_of_str soil_data' acc f0 c0); [|reflexivity].
    simpl. apply IH. intros f c Hin. apply (Hsame f c). apply elem_of_cons. auto.
  - apply (Hsame f0 c0). apply elem_of_cons. auto.
Qed.

(** ** Further properties: authenticate *)

(** After a login that is accepted, [authenticate] has returned [True],
    stored what the body holds under ["access_token"] ([None] when it
    holds nothing) and an expiry one hour after the clock reading, and
    kept the credentials; [_is_token_valid] then compares the clock with
    that expiry less 300 seconds, and answers [False] whatever the clock
    when the stored token is [None]. *)
Theorem authenticate_success_session
    (W : world) (s : state) (d : gmap string pyval) :
  login_accepted (net W (log s) (login_request (self s))) d ->
  let now := clock W (log s ++ [Request (login_request (self s))]) in
  let s' := snd (authenticate W s) in
  fst (authenticate W s) = Ok true /\
  self s' = with_session (self s) (token_of d) now /\
  fst (_is_token_valid W s')
  = Ok (match token_of d with
        | PNone => false
        | _ => float_ltb (clock W (log s'))
                 (SFsub prec emax (float_add now (Z2SF 3600)) (Z2SF 300))
        end).
Proof.
  intros (r & Hnet & Hst & Hbody). simpl.
  rewrite authenticate_run. simpl. rewrite Hnet, Hst, Hbody. simpl.
  fold (token_of d). repeat split.
  unfold _is_token_valid, bind, get_self, time_time, ret. simpl.
  destruct (token_of d); reflexivity.
Qed.

Lemma authenticate_success_session_witness :
  fst (authenticate W_refresh s_fresh) = Ok true /\
  access_token (self (snd (authenticate W_refresh s_fresh))) = PStr "fresh-token" /\
  fst (_is_token_valid W_refresh (snd (authenticate W_refresh s_fresh))) = Ok true /\
  fst (authenticate W_empty_login s_logged_in) = Ok true /\
  fst (_is_token_valid W_empty_login (snd (authenticate W_empty_login s_logged_in)))
  = Ok false.
Proof.
  destruct (authenticate_success_session W_refresh s_fresh
              {[ "access_token" := PStr "fresh-token" ]}) as (H1 & H2 & H3).
  { eexists. repeat split; reflexivity. }
  destruct (authenticate_success_session W_empty_login s_logged_in ∅)
    as (H4 & H5 & H6).
  { eexists. repeat split; reflexivity. }
  split; [exact H1|]. split; [rewrite H2; reflexivity|].
  split; [rewrite H3; vm_compute; reflexivity|].
  split; [exact H4|]. rewrite H6. reflexivity.
Defined.

(** No [RequestException] ever leaves [authenticate]; and when the login
    is answered, with a status that is no error, by JSON that is no
    object, the [AttributeError] of [token_data.get] leaves it, the
    fetcher object being as it was. *)
Theorem authenticate_raises (W : world) (s : state) :
  (forall e, fst (authenticate W s) <> Raise (RequestException e)) /\
  (login_not_an_object (net W (log s) (login_request (self s))) ->
   fst (authenticate W s) = Raise AttributeError /\
   self (snd (authenticate W s)) = self s).
Proof.
  split; [intros e; apply authenticate_not_request_exception|].
  intros (r & v & Hnet & Hst & Hb & Hv).
  rewrite authenticate_run. simpl. rewrite Hnet, Hst, Hb.
  destruct v; try (split; reflexivity). destruct (Hv d). reflexivity.
Qed.

Lemma authenticate_raises_witness :
  fst (authenticate W_array_login s_logged_in) = Raise AttributeError /\
  self (snd (authenticate W_array_login s_logged_in)) = self s_logged_in.
Proof.
  apply (authenticate_raises W_array_login s_logged_in).
  exists {| status_code := 200; json_body := Some (PList []) |}, (PList []).
  repeat split. discriminate.
Defined.

(** In every outcome [authenticate] sends one request, the login POST of
    the stored credentials, and no GET; it never changes the credentials
    or the base URL, and changes nothing of the fetcher object unless it
    returns [True]. *)
Theorem authenticate_footprint (W : world) (s : state) :
  exists new,
    log (snd (authenticate W s)) = log s ++ new /\
    requests_of POST new = [login_request (self s)] /\
    requests_of GET new = [] /\
    username (self (snd (authenticate W s))) = username (self s) /\
    password (self (snd (authenticate W s))) = password (self s) /\
    base_url (self (snd (authenticate W s))) = base_url (self s) /\
    (fst (authenticate W s) <> Ok true -> self (snd (authenticate W s)) = self s).
Proof.
  destruct (authenticate_log W s) as (tail & Hlog & Hpr).
  exists (Request (login_request (self s)) :: tail).
  split; [exact Hlog|].
  split; [simpl; rewrite (requests_of_prints _ _ Hpr); reflexivity|].
  split; [simpl; rewrite (requests_of_prints _ _ Hpr); reflexivity|].
  rewrite authenticate_run. simpl.
  destruct (net W (log s) (login_request (self s))) as [r|e]; [|auto].
  destruct (error_status r); [auto|].
  destruct (json_body r) as [[]|]; simpl; auto 10.
  repeat split; try reflexivity. intros H. destruct H. reflexivity.
Qed.

(** ** Further properties: fetch_soil_properties *)

(** The requests of one call, by the course it takes: the GET alone; the
    GET and a login that did not return [True]; or the GET, a login that
    returned [True] and the GET again, now under the headers of the state
    the login left. *)
Lemma fetch_requests (W : world) (s : state) (latitude longitude : float) :
  let g := first_get s latitude longitude in
  let s1 := logged s (Request g) in
  exists new,
    log (snd (fetch_soil_properties W latitude longitude s)) = log s ++ new /\
    ((requests_of GET new = [g] /\ requests_of POST new = [] /\
      self (snd (fetch_soil_properties W latitude longitude s)) = self s) \/
     (requests_of GET new = [g] /\
      requests_of POST new = [login_request (self s)] /\
      fst (authenticate W s1) <> Ok true /\
      snd (fetch_soil_properties W latitude longitude s) = snd (authenticate W s1)) \/
     (exists s2,
        authenticate W s1 = (Ok true, s2) /\
        requests_of GET new
        = [g; soil_request (self s) latitude longitude (bearer_headers (self s2))] /\
        requests_of POST new = [login_request (self s)] /\
        self (snd (fetch_soil_properties W latitude longitude s)) = self s2)).
Proof.
  intros g s1. rewrite fetch_run. simpl. fold g. fold s1.
  destruct (net W (log s) g) as [r|e].
  - destruct (status_code r =? 401).
    + destruct (authenticate_log W s1) as (tail & Hlog & Hpr).
      destruct (authenticate W s1) as [[[|]|e] s2] eqn:Ha; simpl in *.
      * set (g2 := soil_request (self s) latitude longitude (bearer_headers (self s2))).
        destruct (retry_log W latitude longitude s2 g2) as [m Hm].
        exists ([Request g] ++ Request (login_request (self s)) :: tail
                ++ [Request g2; Print m]).
        split; [rewrite Hm, Hlog, <- !app_assoc; reflexivity|].
        right. right. exists s2. split; [reflexivity|].
        simpl. rewrite !requests_of_app, !(requests_of_prints _ _ Hpr).
        repeat split.
        destruct (net W (log s2) g2) as [r2|e2]; [|reflexivity].
        unfold judged. destruct (error_status r2); [reflexivity|].
        destruct (json_body r2); reflexivity.
      * exists ([Request g] ++ Request (login_request (self s)) :: tail).
        split; [rewrite Hlog, <- !app_assoc; reflexivity|].
        right. left. simpl. rewrite !(requests_of_prints _ _ Hpr).
        repeat split. discriminate.
      * exists ([Request g] ++ Request (login_request (self s)) :: tail).
        split; [rewrite Hlog, <- !app_assoc; reflexivity|].
        right. left. simpl. rewrite !(requests_of_prints _ _ Hpr).
        repeat split. discriminate.
    + destruct (judged_log latitude longitude r s1) as [m Hm].
      exists [Request g; Print m].
      split; [rewrite Hm; simpl; rewrite <- app_assoc; reflexivity|].
      left. repeat split.
      unfold judged. destruct (error_status r); [reflexivity|].
      destruct (json_body r); reflexivity.
  - exists [Request g; Print (FetchFailed e)].
    split; [simpl; rewrite <- app_assoc; reflexivity|].
    left. repeat split.
Qed.

(** There is no second retry: whatever the service answers, one call
    sends at most two GETs and at most one login POST. *)
Theorem fetch_bounded_traffic (W : world) (s : state) (latitude longitude : float) :
  exists new,
    log (snd (fetch_soil_properties W latitude longitude s)) = log s ++ new /\
    (1 <= length (requests_of GET new) <= 2)%nat /\
    (length (requests_of POST new) <= 1)%nat /\
    (length (requests_of GET new) = 2%nat -> length (requests_of POST new) = 1%nat).
Proof.
  destruct (fetch_requests W s latitude longitude) as (new & Hlog & H).
  exists new. split; [exact Hlog|].
  destruct H as [(-> & -> & _) | [(-> & -> & _) | (s2 & _ & -> & -> & _)]];
    simpl; repeat split; lia.
Qed.

(** When the login of the retry path returns [True], the retried GET goes
    out under the token that login stored, and the call ends with the
    fetcher object as the login left it. *)
Theorem fetch_retry_carries_new_token
    (W : world) (s s2 : state) (latitude longitude : float) (r : Response) :
  net W (log s) (first_get s latitude longitude) = Answer r ->
  status_code r = 401 ->
  authenticate W (logged s (Request (first_get s latitude longitude))) = (Ok true, s2) ->
  exists new second,
    log (snd (fetch_soil_properties W latitude longitude s)) = log s ++ new /\
    requests_of GET new = [first_get s latitude longitude; second] /\
    headers second = [ ("Authorization", HBearer (access_token (self s2)));
                       ("Content-Type", HStr "application/json") ] /\
    self (snd (fetch_soil_properties W latitude longitude s)) = self s2.
Proof.
  intros Hnet Hst Ha.
  destruct (fetch_requests W s latitude longitude) as (new & Hlog & H).
  exists new.
  destruct H as [(_ & Hp & _) | [(_ & _ & Hne & _) | (s2' & Ha' & Hg & _ & Hs)]].
  - exfalso. revert Hlog Hp. rewrite fetch_run. simpl. rewrite Hnet, Hst. simpl.
    rewrite Ha. intros Hlog Hp.
    destruct (authenticate_log W (logged s (Request (first_get s latitude longitude))))
      as (tail & Hl & _).
    rewrite Ha in Hl. simpl in Hl.
    destruct (retry_log W latitude longitude s2
                (soil_request (self s) latitude longitude (bearer_headers (self s2))))
      as [m Hm].
    rewrite Hm, Hl, <- !app_assoc in Hlog. apply app_inv_head in Hlog.
    subst new. simpl in Hp. discriminate Hp.
  - rewrite Ha in Hne. destruct Hne. reflexivity.
  - rewrite Ha in Ha'. injection Ha' as <-.
    eexists. split; [exact Hlog|]. split; [exact Hg|]. split; [reflexivity|exact Hs].
Qed.

Lemma fetch_retry_carries_new_token_witness :
  exists new second,
    log (snd (fetch_soil_properties W_refresh latitude0 longitude0 s_fresh))
    = log s_fresh ++ new /\
    requests_of GET new = [first_get s_fresh latitude0 longitude0; second] /\
    headers second = [ ("Authorization", HBearer (PStr "fresh-token"));
                       ("Content-Type", HStr "application/json") ] /\
    access_token (self (snd (fetch_soil_properties W_refresh latitude0 longitude0 s_fresh)))
    = PStr "fresh-token".
Proof.
  destruct (fetch_retry_carries_new_token W_refresh s_fresh
              (snd (authenticate W_refresh
                      (logged s_fresh (Request (first_get s_fresh latitude0 longitude0)))))
              latitude0 longitude0 {| status_code := 401; json_body := None |}
              eq_refl eq_refl)
    as (new & second & H1 & H2 & H3 & H4).
  { rewrite authenticate_run. reflexivity. }
  exists new, second. split; [exact H1|]. split; [exact H2|].
  split; [rewrite H3|rewrite H4]; rewrite authenticate_run; reflexivity.
Defined.

(** Retry transparency: when the response that is judged has a status
    that is no error and a JSON body, the call returns that body as it is,
    be it the answer to the first GET or to the retried one, and the last
    thing it does is print the success line. *)
Theorem fetch_success_returns_body
    (W : world) (s : state) (latitude longitude : float) (r : Response) (v : pyval) :
  judged_response W s latitude longitude r ->
  error_status r = false ->
  json_body r = Some v ->
  fst (fetch_soil_properties W latitude longitude s) = Ok v /\
  exists before,
    log (snd (fetch_soil_properties W latitude longitude s))
    = before ++ [Print (FetchSucceeded latitude longitude)].
Proof.
  intros Hj Hst Hb. rewrite fetch_run. simpl.
  destruct Hj as [r Hnet H401 | r0 s2 r Hnet H401 Ha Hnet2].
  - rewrite Hnet. apply Z.eqb_neq in H401. rewrite H401.
    unfold judged. rewrite Hst, Hb. simpl. eauto.
  - rewrite Hnet, H401. simpl. rewrite Ha, Hnet2.
    unfold judged. rewrite Hst, Hb. simpl. eauto.
Qed.

Lemma fetch_success_returns_body_witness :
  fst (fetch_soil_properties W_refresh latitude0 longitude0 s_fresh) = Ok nitrogen_payload /\
  exists before,
    log (snd (fetch_soil_properties W_refresh latitude0 longitude0 s_fresh))
    = before ++ [Print (FetchSucceeded latitude0 longitude0)].
Proof.
  apply (fetch_success_returns_body W_refresh s_fresh latitude0 longitude0
           {| status_code := 200; json_body := Some nitrogen_payload |}).
  - apply (judged_retried W_refresh s_fresh latitude0 longitude0
             {| status_code := 401; json_body := None |}
             (snd (authenticate W_refresh
                     (logged s_fresh (Request (first_get s_fresh latitude0 longitude0)))))).
    + reflexivity.
    + reflexivity.
    + rewrite authenticate_run. reflexivity.
    + rewrite authenticate_run. reflexivity.
  - reflexivity.
  - reflexivity.
Defined.

Lemma authenticate_credentials (W : world) (s : state) :
  username (self (snd (authenticate W s))) = username (self s) /\
  password (self (snd (authenticate W s))) = password (self s) /\
  base_url (self (snd (authenticate W s))) = base_url (self s).
Proof.
  rewrite authenticate_run. simpl.
  destruct (net W (log s) (login_request (self s))) as [r|e]; [|auto].
  destruct (error_status r); [auto|].
  destruct (json_body r) as [[]|]; simpl; auto.
Qed.

(** A call never changes the credentials or the base URL, and unless its
    first GET is answered 401 it leaves the whole fetcher object, token
    and expiry included, as it found it. *)
Theorem fetch_keeps_fetcher (W : world) (s : state) (latitude longitude : float) :
  username (self (snd (fetch_soil_properties W latitude longitude s))) = username (self s) /\
  password (self (snd (fetch_soil_properties W latitude longitude s))) = password (self s) /\
  base_url (self (snd (fetch_soil_properties W latitude longitude s))) = base_url (self s) /\
  ((forall r, net W (log s) (first_get s latitude longitude) = Answer r ->
              status_code r <> 401) ->
   self (snd (fetch_soil_properties W latitude longitude s)) = self s).
Proof.
  destruct (fetch_requests W s latitude longitude) as (new & Hlog & H).
  set (s1 := logged s (Request (first_get s latitude longitude))) in *.
  pose proof (authenticate_credentials W s1) as Hauth. simpl in Hauth.
  destruct H as [(_ & Hp & ->) | [(_ & Hp & _ & ->) | (s2 & Ha & _ & Hp & ->)]].
  - auto.
  - destruct Hauth as (-> & -> & ->). repeat split.
    intros Hno. exfalso. revert Hlog Hp. rewrite fetch_run. simpl. fold s1.
    destruct (net W (log s) (first_get s latitude longitude)) as [r|e].
    + specialize (Hno r eq_refl). apply Z.eqb_neq in Hno. rewrite Hno.
      destruct (judged_log latitude longitude r s1) as [m ->]. simpl.
      rewrite <- app_assoc. intros Hl. apply app_inv_head in Hl. subst new.
      discriminate.
    + simpl. rewrite <- app_assoc. intros Hl. apply app_inv_head in Hl. subst new.
      discriminate.
  - rewrite Ha in Hauth. simpl in Hauth. destruct Hauth as (-> & -> & ->).
    repeat split.
    intros Hno. exfalso. revert Hlog Hp. rewrite fetch_run. simpl. fold s1.
    destruct (net W (log s) (first_get s latitude longitude)) as [r|e].
    + specialize (Hno r eq_refl). apply Z.eqb_neq in Hno. rewrite Hno.
      destruct (judged_log latitude longitude r s1) as [m ->]. simpl.
      rewrite <- app_assoc. intros Hl. apply app_inv_head in Hl. subst new.
      discriminate.
    + simpl. rewrite <- app_assoc. intros Hl. apply app_inv_head in Hl. subst new.
      discriminate.
Qed.

(** No [RequestException] ever leaves [fetch_soil_properties]; and when
    its first GET is answered 401 and the login is then answered, with a
    status that is no error, by JSON that is no object, the
    [AttributeError] of the re-authentication leaves it. *)
Theorem fetch_raises (W : world) (s : state) (latitude longitude : float) :
  (forall e,
     fst (fetch_soil_properties W latitude longitude s)
     <> Raise (RequestException e)) /\
  (forall r,
     net W (log s) (first_get s latitude longitude) = Answer r ->
     status_code r = 401 ->
     login_not_an_object
       (net W (log s ++ [Request (first_get s latitude longitude)])
          (login_request (self s))) ->
     fst (fetch_soil_properties W latitude longitude s) = Raise AttributeError).
Proof.
  rewrite fetch_run. simpl.
  set (g := first_get s latitude longitude).
  split.
  - intros e.
    assert (Hjudged : forall r s',
              fst (judged latitude longitude r s') <> Raise (RequestException e)).
    { intros r s'. unfold judged. destruct (error_status r); [discriminate|].
      destruct (json_body r); discriminate. }
    destruct (net W (log s) g) as [r|e0]; [|discriminate].
    destruct (status_code r =? 401); [|apply Hjudged].
    pose proof (authenticate_not_request_exception W (logged s (Request g)) e) as Hne.
    destruct (authenticate W (logged s (Request g))) as [[[|]|e'] s2]; simpl in *.
    + destruct (net W (log s2) _) as [r2|e2]; [apply Hjudged|discriminate].
    + discriminate.
    + intros [= ->]. apply Hne. reflexivity.
  - intros r -> -> (r' & v & Hnet & Hst & Hb & Hv). simpl.
    rewrite authenticate_run. simpl. rewrite Hnet, Hst, Hb.
    destruct v; try reflexivity. destruct (Hv d). reflexivity.
Qed.

Lemma fetch_raises_witness :
  fst (fetch_soil_properties W_array_login latitude0 longitude0 s_fresh)
  = Raise AttributeError.
Proof.
  apply (proj2 (fetch_raises W_array_login s_fresh latitude0 longitude0)
           {| status_code := 401; json_body := None |} eq_refl eq_refl).
  exists {| status_code := 200; json_body := Some (PList []) |}, (PList []).
  repeat split. discriminate.
Defined.

(** The stored expiry is never consulted: from two states that differ in
    nothing but [token_expiry], a call returns the same, logs the same and
    leaves the same token. *)
Theorem fetch_ignores_expiry
    (W : world) (s s' : state) (latitude longitude : float) :
  same_but_expiry s s' ->
  fst (fetch_soil_properties W latitude longitude s)
  = fst (fetch_soil_properties W latitude longitude s') /\
  log (snd (fetch_soil_properties W latitude longitude s))
  = log (snd (fetch_soil_properties W latitude longitude s')) /\
  access_token (self (snd (fetch_soil_properties W latitude longitude s)))
  = access_token (self (snd (fetch_soil_properties W latitude longitude s'))).
Proof.
  destruct s as [[u p b t x] l], s' as [[u' p' b' t' x'] l'].
  unfold same_but_expiry. simpl. intros (-> & -> & -> & -> & ->).
  rewrite !fetch_run. unfold first_get, logged, bearer_headers, soil_request. simpl.
  destruct (net W l' _) as [r|e]; [|auto].
  destruct (status_code r =? 401).
  - rewrite !authenticate_run. unfold login_request, logged. simpl.
    destruct (net W (l' ++ _) _) as [r'|e']; [|auto].
    destruct (error_status r'); [auto|].
    destruct (json_body r') as [[]|]; simpl; auto.
  - unfold judged. destruct (error_status r); [auto|].
    destruct (json_body r); auto.
Qed.

Lemma fetch_ignores_expiry_witness :
  fst (fetch_soil_properties W_refresh latitude0 longitude0 s_logged_in)
  = fst (fetch_soil_properties W_refresh latitude0 longitude0
           {| self := with_session (self s_logged_in) (PStr "old-token") (Z2SF 0);
              log := [] |}).
Proof.
  apply (fetch_ignores_expiry W_refresh s_logged_in
           {| self := with_session (self s_logged_in) (PStr "old-token") (Z2SF 0);
              log := [] |} latitude0 longitude0).
  repeat split.
Defined.

(** ** Further properties: generate_recommendation *)

(** The prompt shows what the payload held: for a mapped raw field that is
    absent or an empty list, the line of its nutrient shows ["N/A"] twice;
    for one that is a non-empty list, it shows the nested value of the
    first record and the band of that value. *)
Theorem prompt_reflects_payload
    (float_of_str : string -> option float) (soil_data : pyval)
    (p : gmap string entry) (f c : string) :
  classify_soil_data float_of_str soil_data = Ok p ->
  (f, c) ∈ property_mapping ->
  soil_line_of p c ∈ build_prompt p /\
  (raw_field soil_data f = None \/ raw_field soil_data f = Some (PList []) ->
   shown_value (soil_line_of p c) = PStr "N/A" /\
   shown_classification (soil_line_of p c) = "N/A") /\
  (forall record rest,
     raw_field soil_data f = Some (PList (record :: rest)) ->
     nested_value record = Ok (shown_value (soil_line_of p c)) /\
     classify_property float_of_str (shown_value (soil_line_of p c)) c
     = Ok (shown_classification (soil_line_of p c))).
Proof.
  intros H Hin. split.
  { unfold build_prompt, property_mapping in *.
    repeat (apply elem_of_cons in Hin as [Hin|Hin];
            [injection Hin as -> ->; repeat constructor|]).
    apply elem_of_nil in Hin. contradiction. }
  destruct (classify_fields_lookup _ _ _ _ _ class_names_NoDup H) as [Hl _].
  unfold soil_line_of. simpl.
  destruct (Hl f c Hin) as [[Ho Hp] | (e & (data & r & Hraw & Ht & Hr & Hv & Hb) & Hp)];
    rewrite Hp, ?lookup_empty.
  - split; [auto|]. intros record rest Hraw.
    destruct Ho as [Ho | (data & Ho & Ht)]; rewrite Hraw in Ho; [discriminate|].
    injection Ho as <-. discriminate Ht.
  - split.
    + intros [Hn | Hn]; rewrite Hraw in Hn; [discriminate|].
      injection Hn as ->. discriminate Ht.
    + intros record rest Hraw'. rewrite Hraw in Hraw'. injection Hraw' as ->.
      injection Hr as <-. auto.
Qed.

Lemma prompt_reflects_payload_witness :
  shown_value (soil_line_of profile_partial "ph") = PStr "N/A" /\
  shown_classification (soil_line_of profile_partial "ph") = "N/A".
Proof.
  destruct (prompt_reflects_payload no_parse payload_partial profile_partial "ph" "ph"
              classify_soil_data_partial_run) as (_ & Hna & _).
  - unfold property_mapping. repeat constructor.
  - apply Hna. left. vm_compute. reflexivity.
Defined.

(** ** Further properties: main *)

Lemma fetcher_events_app (l1 l2 : list main_event) :
  fetcher_events (l1 ++ l2) = fetcher_events l1 ++ fetcher_events l2.
Proof. apply omap_app. Qed.

Lemma generations_app (l1 l2 : list main_event) :
  generations (l1 ++ l2) = generations l1 ++ generations l2.
Proof. apply omap_app. Qed.

Lemma fetcher_events_Fetcher (l : list event) :
  fetcher_events (map Fetcher l) = l.
Proof. induction l as [|e l IH]; [reflexivity|]. simpl. f_equal. exact IH. Qed.

Lemma generations_Fetcher (l : list event) :
  generations (map Fetcher l) = [].
Proof. induction l as [|e l IH]; [reflexivity|]. exact IH. Qed.

Lemma fetcher_events_lines (l : list (string * entry)) :
  fetcher_events
    (map (fun '(nutrient, data) =>
            Printed (ClassifiedLine nutrient (value data) (classification data))) l)
  = [].
Proof. induction l as [|[n d] l IH]; [reflexivity|]. exact IH. Qed.

Lemma generations_lines (l : list (string * entry)) :
  generations
    (map (fun '(nutrient, data) =>
            Printed (ClassifiedLine nutrient (value data) (classification data))) l)
  = [].
Proof. induction l as [|[n d] l IH]; [reflexivity|]. exact IH. Qed.

Lemma last_ends {X} (l : list X) (a b c d : X) :
  last (l ++ [a; b; c; d]) = Some d.
Proof. rewrite last_app. reflexivity. Qed.

Ltac project_trace :=
  repeat progress
    (rewrite ?fetcher_events_app, ?generations_app, ?fetcher_events_Fetcher,
       ?generations_Fetcher, ?fetcher_events_lines, ?generations_lines;
     simpl; rewrite ?app_nil_r).

Lemma variable_missing_credentials (A : app_world) :
  variable_missing A -> credentials A = None.
Proof.
  intros (name & Hin & H). unfold credentials.
  repeat (apply elem_of_cons in Hin as [->|Hin]);
    [| | | apply elem_of_nil in Hin; contradiction];
    destruct H as [-> | ->];
    repeat match goal with
      | |- context [getenv A ?n] => destruct (getenv A n)
      end; try reflexivity; simpl; rewrite ?andb_false_r; reflexivity.
Qed.

(** Without the three variables nothing is attempted: when one of them is
    unset or empty, [main] returns after its notice, having sent no
    request and called no model. *)
Theorem main_without_credentials
    (float_of_str : string -> option float) (A : app_world) :
  variable_missing A ->
  fst (main float_of_str A) = Ok tt /\
  fetcher_events (snd (main float_of_str A)) = [] /\
  generations (snd (main float_of_str A)) = [] /\
  last (snd (main float_of_str A)) = Some (Printed RequiredVariables).
Proof.
  intros H. unfold main. rewrite (variable_missing_credentials A H).
  repeat split.
Qed.

Lemma main_without_credentials_witness :
  fst (main no_parse (A_no_key W_refresh)) = Ok tt /\
  fetcher_events (snd (main no_parse (A_no_key W_refresh))) = [] /\
  generations (snd (main no_parse (A_no_key W_refresh))) = [] /\
  last (snd (main no_parse (A_no_key W_refresh))) = Some (Printed RequiredVariables).
Proof.
  apply (main_without_credentials no_parse (A_no_key W_refresh)).
  exists "GEMINI_API_KEY". split; [repeat constructor|]. right. reflexivity.
Defined.

(** With the three variables set, the network traffic of [main] is that of
    one [fetch_soil_properties] on a fetcher fresh from [__init__]: it
    begins with the GET for the coordinates of Kisumu, sent to the
    production endpoint under the token [None]. *)
Theorem main_first_request_unauthenticated
    (float_of_str : string -> option float) (A : app_world)
    (isda_username isda_password gemini_api_key : string) :
  credentials A = Some (isda_username, isda_password, gemini_api_key) ->
  let s0 := s_main isda_username isda_password in
  fetcher_events (snd (main float_of_str A))
  = log (snd (fetch_soil_properties (service A) latitude0 longitude0 s0)) /\
  exists g rest,
    fetcher_events (snd (main float_of_str A)) = Request g :: rest /\
    method g = GET /\
    url g = "https://api.isda-africa.com/isdasoil/v2/soilproperty" /\
    params g = [ ("lon", PFloat longitude0); ("lat", PFloat latitude0);
                 ("depth", PStr "0-20") ] /\
    headers g = [ ("Authorization", HBearer PNone);
                  ("Content-Type", HStr "application/json") ].
Proof.
  intros Hc s0.
  assert (Hev : fetcher_events (snd (main float_of_str A))
                = log (snd (fetch_soil_properties (service A) latitude0 longitude0 s0))).
  { unfold main. rewrite Hc. fold (s_main isda_username isda_password). fold s0.
    destruct (fetch_soil_properties (service A) latitude0 longitude0 s0)
      as [[soil_data|e] s]; simpl.
    - destruct (py_truthy soil_data); simpl.
      + destruct (classify_soil_data float_of_str soil_data); simpl;
          project_trace; reflexivity.
      + project_trace. reflexivity.
    - project_trace. reflexivity. }
  split; [exact Hev|].
  destruct (fetch_log_extends (service A) s0 latitude0 longitude0) as (rest & Hlog & _).
  exists (first_get s0 latitude0 longitude0), rest.
  split; [rewrite Hev; exact Hlog|]. repeat split.
Qed.

Lemma main_first_request_unauthenticated_witness :
  exists g rest,
    fetcher_events (snd (main no_parse (A_configured W_refresh))) = Request g :: rest /\
    method g = GET /\
    url g = "https://api.isda-africa.com/isdasoil/v2/soilproperty" /\
    params g = [ ("lon", PFloat longitude0); ("lat", PFloat latitude0);
                 ("depth", PStr "0-20") ] /\
    headers g = [ ("Authorization", HBearer PNone);
                  ("Content-Type", HStr "application/json") ].
Proof.
  exact (proj2 (main_first_request_unauthenticated no_parse (A_configured W_refresh)
                  "user" "secret" "key" eq_refl)).
Defined.

(** The model is called at most once, and only at the end of a run in
    which the variables were set, the lookup returned a truthy payload and
    the classifier returned a profile: the prompt is then built from that
    profile, the key is the one of the environment, and the run ends
    normally on the line of the recommendation. *)
Theorem main_generates_after_classification
    (float_of_str : string -> option float) (A : app_world) :
  generations (snd (main float_of_str A)) = [] \/
  exists isda_username isda_password gemini_api_key soil_data classified_soil,
    credentials A = Some (isda_username, isda_password, gemini_api_key) /\
    fst (fetch_soil_properties (service A) latitude0 longitude0
           (s_main isda_username isda_password)) = Ok soil_data /\
    py_truthy soil_data = true /\
    classify_soil_data float_of_str soil_data = Ok classified_soil /\
    generations (snd (main float_of_str A))
    = [(gemini_api_key, build_prompt classified_soil)] /\
    fst (main float_of_str A) = Ok tt /\
    last (snd (main float_of_str A))
    = Some (Printed (Recommendation
              (generate_recommendation (new_FertilizerRecommender A gemini_api_key)
                 classified_soil))).
Proof.
  unfold main.
  destruct (credentials A) as [[[u pw] k]|] eqn:Hc; [|left; reflexivity].
  fold (s_main u pw).
  destruct (fetch_soil_properties (service A) latitude0 longitude0 (s_main u pw))
    as [[soil_data|e] s] eqn:Hf; simpl.
  - destruct (py_truthy soil_data) eqn:Ht; simpl.
    + destruct (classify_soil_data float_of_str soil_data) as [classified|e] eqn:Hcl;
        simpl.
      * right. exists u, pw, k, soil_data, classified. rewrite Hf.
        repeat split; trivial.
        -- project_trace. reflexivity.
        -- rewrite ?app_comm_cons. apply last_ends.
      * left. project_trace. reflexivity.
    + left. project_trace. reflexivity.
  - left. project_trace. reflexivity.
Qed.

(** [main] handles no exception: one leaves it exactly when, the variables
    being set, it leaves [fetch_soil_properties], or the lookup returns a
    truthy payload on which [classify_soil_data] raises it; the model is
    not called then. *)
Theorem main_raises
    (float_of_str : string -> option float) (A : app_world) (e : exn) :
  fst (main float_of_str A) = Raise e <->
  exists isda_username isda_password gemini_api_key,
    credentials A = Some (isda_username, isda_password, gemini_api_key) /\
    generations (snd (main float_of_str A)) = [] /\
    (fst (fetch_soil_properties (service A) latitude0 longitude0
            (s_main isda_username isda_password)) = Raise e \/
     exists soil_data,
       fst (fetch_soil_properties (service A) latitude0 longitude0
              (s_main isda_username isda_password)) = Ok soil_data /\
       py_truthy soil_data = true /\
       classify_soil_data float_of_str soil_data = Raise e).
Proof.
  unfold main.
  destruct (credentials A) as [[[u pw] k]|] eqn:Hc.
  2:{ split; [discriminate|]. intros (? & ? & ? & [=] & _). }
  fold (s_main u pw).
  destruct (fetch_soil_properties (service A) latitude0 longitude0 (s_main u pw))
    as [[soil_data|e'] s] eqn:Hf; simpl.
  - destruct (py_truthy soil_data) eqn:Ht; simpl.
    + destruct (classify_soil_data float_of_str soil_data) as [classified|e'] eqn:Hcl;
        simpl.
      * split; [discriminate|].
        intros (u' & pw' & k' & Heq & _ & H). injection Heq as <- <- <-.
        rewrite Hf in H. simpl in H.
        destruct H as [H | (sd & H1 & _ & H3)]; [discriminate H|].
        injection H1 as <-. rewrite Hcl in H3. discriminate H3.
      * split.
        -- intros [= <-]. exists u, pw, k. rewrite Hf. split; [reflexivity|].
           split; [project_trace; reflexivity|]. right. exists soil_data. auto.
        -- intros (u' & pw' & k' & Heq & _ & H). injection Heq as <- <- <-.
           rewrite Hf in H. simpl in H.
           destruct H as [H | (sd & H1 & _ & H3)]; [discriminate H|].
           injection H1 as <-. rewrite Hcl in H3. injection H3 as <-. reflexivity.
    + split; [discriminate|].
      intros (u' & pw' & k' & Heq & _ & H). injection Heq as <- <- <-.
      rewrite Hf in H. simpl in H.
      destruct H as [H | (sd & H1 & H2 & _)]; [discriminate H|].
      injection H1 as <-. rewrite Ht in H2. discriminate H2.
  - split.
    + intros [= <-]. exists u, pw, k. rewrite Hf. split; [reflexivity|].
      split; [project_trace; reflexivity|]. left. reflexivity.
    + intros (u' & pw' & k' & Heq & _ & H). injection Heq as <- <- <-.
      rewrite Hf in H. simpl in H.
      destruct H as [H | (sd & H1 & _)]; [|discriminate H1].
      injection H as <-. reflexivity.
Qed.

(** A run of [main] against a service that answers the lookup with a JSON
    array: the payload is truthy, so the classifier is reached, and its
    [AttributeError] ends the program. *)
Lemma main_raises_witness :
  fst (main no_parse (A_configured W_array_payload)) = Raise AttributeError.
Proof.
  apply (main_raises no_parse (A_configured W_array_payload) AttributeError).
  exists "user", "secret", "key". split; [reflexivity|].
  split; [vm_compute; reflexivity|].
  right. exists (PList [PInt 1]). repeat split.
Defined.

(** A full run: a 401, a login, the retried lookup, the classification and
    one call of the model. *)
Lemma main_generates_after_classification_witness :
  generations (snd (main no_parse (A_configured W_refresh)))
  = [("key", build_prompt
               (<[ "nitrogen" := {| value := PFloat (Z2SF 3);
                                    classification := "Moderate" |} ]> ∅))] /\
  fst (main no_parse (A_configured W_refresh)) = Ok tt.
Proof.
  destruct (main_generates_after_classification no_parse (A_configured W_refresh))
    as [H | (u & pw & k & sd & cl & Hc & Hf & _ & Hcl & Hg & Hr & _)].
  - vm_compute in H. discriminate H.
  - injection Hc as <- <- <-.
    assert (Hsd : sd = nitrogen_payload).
    { rewrite fetch_run in Hf. injection Hf as <-. reflexivity. }
    subst sd.
    assert (Hp : cl = <[ "nitrogen" := {| value := PFloat (Z2SF 3);
                                          classification := "Moderate" |} ]> ∅).
    { vm_compute in Hcl. injection Hcl as <-. vm_compute. reflexivity. }
    subst cl. split; [exact Hg|exact Hr].
Defined.

Lemma classify_soil_data_first_record_witness :
  classify_soil_data no_parse payload_two_depths
  = classify_soil_data no_parse payload_one_depth.
Proof.
  apply (classify_soil_data_first_record no_parse payload_two_depths payload_one_depth).
  - vm_compute. exact I.
  - vm_compute. exact I.
  - intros f c H. unfold property_mapping in H. each_mapped_field H.
    + left. vm_compute. reflexivity.
    + left. vm_compute. reflexivity.
    + left. vm_compute. reflexivity.
    + right. eexists _, _, _. split; vm_compute; reflexivity.
Defined.

(** ** Further properties: what is left out and what is explained *)

(** In a profile that [classify_soil_data] returns, a canonical name has
    no entry exactly when its raw field is absent or falsy: besides the
    empty list, a null, a zero, [false], an empty string and an empty
    object are passed over in silence. *)
Theorem classify_soil_data_no_entry_iff
    (float_of_str : string -> option float) (soil_data : pyval)
    (p : gmap string entry) (f c : string) :
  classify_soil_data float_of_str soil_data = Ok p ->
  (f, c) ∈ property_mapping ->
  (p !! c = None <-> omitted soil_data f).
Proof.
  intros H Hin.
  destruct (classify_fields_lookup _ _ _ _ _ class_names_NoDup H) as [Hl _].
  destruct (Hl f c Hin) as [[Ho Hp] | (e & (data & r & Hraw & Ht & _) & Hp)].
  - split; [intros _; exact Ho|]. intros _. rewrite Hp. apply lookup_empty.
  - rewrite Hp. split; [discriminate|].
    intros [Ho | (data' & Ho & Ht')]; rewrite Hraw in Ho; [discriminate|].
    injection Ho as <-. congruence.
Qed.

Lemma classify_soil_data_no_entry_iff_witness :
  profile_partial !! "potassium" = None <->
  omitted payload_partial "potassium_extractable".
Proof.
  apply (classify_soil_data_no_entry_iff no_parse payload_partial profile_partial
           "potassium_extractable" "potassium" classify_soil_data_partial_run).
  unfold property_mapping. repeat constructor.
Defined.

(** Every call of [fetch_soil_properties] that returns ends on a printed
    line, and that line tells the outcome: the success line, with the
    body returned as it is, or else a line that names the failure, with
    [None] returned. *)
Theorem fetch_outcome_explained
    (W : world) (s : state) (latitude longitude : float) (v : pyval) :
  fst (fetch_soil_properties W latitude longitude s) = Ok v ->
  exists before m,
    log (snd (fetch_soil_properties W latitude longitude s)) = before ++ [Print m] /\
    ((m = FetchSucceeded latitude longitude /\
      exists r, judged_response W s latitude longitude r /\ json_body r = Some v) \/
     (v = PNone /\ is_diagnostic (Print m))).
Proof.
  rewrite fetch_run. simpl.
  set (g := first_get s latitude longitude).
  assert (Hj : forall r s',
    judged_response W s latitude longitude r ->
    fst (judged latitude longitude r s') = Ok v ->
    exists before m,
      log (snd (judged latitude longitude r s')) = before ++ [Print m] /\
      ((m = FetchSucceeded latitude longitude /\
        exists r, judged_response W s latitude longitude r /\ json_body r = Some v) \/
       (v = PNone /\ is_diagnostic (Print m)))).
  { intros r s' Hjr. unfold judged. destruct (error_status r).
    - intros [= <-]. eexists _, _. split; [reflexivity|]. right. split; [reflexivity|exact I].
    - destruct (json_body r) as [b|] eqn:Hb.
      + intros [= <-]. eexists _, _. split; [reflexivity|]. left. eauto.
      + intros [= <-]. eexists _, _. split; [reflexivity|]. right.
        split; [reflexivity|exact I]. }
  destruct (net W (log s) g) as [r|e] eqn:Hnet.
  - destruct (status_code r =? 401) eqn:E.
    + apply Z.eqb_eq in E.
      pose proof (authenticate_false_diagnostic W (logged s (Request g))) as Hfalse.
      destruct (authenticate W (logged s (Request g))) as [[[|]|e'] s2] eqn:Ha; simpl in *.
      * destruct (net W (log s2) _) as [r2|e2] eqn:Hnet2.
        -- apply Hj. exact (judged_retried W s latitude longitude r s2 r2 Hnet E Ha Hnet2).
        -- intros [= <-]. eexists _, _. split; [reflexivity|]. right.
           split; [reflexivity|exact I].
      * intros [= <-]. destruct (Hfalse eq_refl) as [e' ->].
        eexists _, _. split; [reflexivity|]. right. split; [reflexivity|exact I].
      * discriminate.
    + apply Z.eqb_neq in E. apply Hj.
      exact (judged_first W s latitude longitude r Hnet E).
  - intros [= <-]. eexists _, _. split; [reflexivity|]. right.
    split; [reflexivity|exact I].
Qed.

Lemma fetch_outcome_explained_witness :
  exists before m,
    log (snd (fetch_soil_properties W_locked_out latitude0 longitude0 s_fresh))
    = before ++ [Print m] /\
    ((m = FetchSucceeded latitude0 longitude0 /\
      exists r, judged_response W_locked_out s_fresh latitude0 longitude0 r /\
                json_body r = Some PNone) \/
     (PNone = PNone /\ is_diagnostic (Print m))).
Proof.
  apply (fetch_outcome_explained W_locked_out s_fresh latitude0 longitude0 PNone).
  rewrite fetch_run. reflexivity.
Defined.

(** ** Further properties: ints are classified by their exact value *)

Lemma digits2_pos_iter_xO (p : positive) (k : positive) :
  digits2_pos (Pos.iter xO p k) = (digits2_pos p + k)%positive.
Proof.
  induction k as [|k IH] using Pos.peano_ind.
  - simpl. lia.
  - rewrite Pos.iter_succ. simpl. rewrite IH. lia.
Qed.

Lemma binary_round_aux_exact (sx : bool) (m : positive) (e : Z) :
  Zpos (digits2_pos m) = 53 -> -1074 <= e <= 971 ->
  binary_round_aux prec emax sx (Zpos m) e loc_Exact = S754_finite sx m e.
Proof.
  intros Hd He. unfold binary_round_aux, shr_fexp. simpl Zdigits2. simpl shr_record_of_loc.
  assert (Hf : fexp prec emax (Zpos (digits2_pos m) + e) - e = 0).
  { rewrite Hd. unfold fexp, emin, prec, emax. lia. }
  rewrite Hf. simpl. rewrite Hf. simpl.
  assert (Hle : (e <=? emax - prec) = true).
  { unfold emax, prec. apply Z.leb_le. lia. }
  rewrite Hle. reflexivity.
Qed.

Lemma Zpos_iter_xO (p k : positive) :
  Zpos (Pos.iter xO p k) = Zpos p * 2 ^ Zpos k.
Proof.
  induction k as [|k IH] using Pos.peano_ind.
  - simpl Pos.iter. rewrite Z.pow_1_r. lia.
  - rewrite Pos.iter_succ, Pos2Z.inj_succ, Z.pow_succ_r by lia.
    rewrite Pos2Z.inj_xO, IH. lia.
Qed.

Lemma shl_align_exact (p : positive) :
  Zpos (digits2_pos p) <= 53 ->
  exists mz,
    shl_align p 0 (Zpos (digits2_pos p) - 53) = (mz, Zpos (digits2_pos p) - 53) /\
    Zpos (digits2_pos mz) = 53 /\
    Zpos mz = Zpos p * 2 ^ (53 - Zpos (digits2_pos p)).
Proof.
  intros Hd. unfold shl_align.
  destruct (Zpos (digits2_pos p) - 53 - 0) as [|k|k] eqn:Hk; try lia.
  - exists p. replace (Zpos (digits2_pos p) - 53) with 0 by lia.
    split; [reflexivity|]. split; [lia|].
    replace (53 - Zpos (digits2_pos p)) with 0 by lia. lia.
  - exists (Pos.iter xO p k). split; [reflexivity|].
    rewrite digits2_pos_iter_xO. split; [lia|].
    replace (53 - Zpos (digits2_pos p)) with (Zpos k) by lia.
    apply Zpos_iter_xO.
Qed.

(** An int of at most 53 bits is converted without rounding. *)
Lemma binary_round_exact (sx : bool) (p : positive) :
  Zpos (digits2_pos p) <= 53 ->
  exists mz,
    binary_round prec emax sx p 0
    = S754_finite sx mz (Zpos (digits2_pos p) - 53) /\
    Zpos mz = Zpos p * 2 ^ (53 - Zpos (digits2_pos p)).
Proof.
  intros Hd. unfold binary_round.
  assert (Hf : fexp prec emax (Zpos (digits2_pos p) + 0) = Zpos (digits2_pos p) - 53).
  { unfold fexp, emin, prec, emax. lia. }
  rewrite Hf.
  destruct (shl_align_exact p Hd) as (mz & -> & Hdz & Hmz).
  exists mz. split; [|exact Hmz].
  apply binary_round_aux_exact; [exact Hdz|lia].
Qed.

Lemma Z2SF_pos_exact (p : positive) :
  Zpos (digits2_pos p) <= 53 ->
  exists mz,
    Z2SF (Zpos p) = S754_finite false mz (Zpos (digits2_pos p) - 53) /\
    Zpos mz = Zpos p * 2 ^ (53 - Zpos (digits2_pos p)).
Proof. apply binary_round_exact. Qed.

(** Bit length and magnitude. *)
Lemma digits2_pos_bounds (p : positive) :
  2 ^ (Zpos (digits2_pos p) - 1) <= Zpos p < 2 ^ Zpos (digits2_pos p).
Proof.
  induction p as [p IH|p IH|]; simpl digits2_pos.
  - rewrite Pos2Z.inj_succ, Z.pow_succ_r by lia.
    replace (Z.succ (Zpos (digits2_pos p)) - 1) with (Z.succ (Zpos (digits2_pos p) - 1)) by lia.
    rewrite Z.pow_succ_r by lia. lia.
  - rewrite Pos2Z.inj_succ, Z.pow_succ_r by lia.
    replace (Z.succ (Zpos (digits2_pos p)) - 1) with (Z.succ (Zpos (digits2_pos p) - 1)) by lia.
    rewrite Z.pow_succ_r by lia. lia.
  - simpl. lia.
Qed.

(** Conversion keeps the order of ints of at most 53 bits. *)
Lemma Z2SF_compare_pos (p q : positive) :
  Zpos (digits2_pos p) <= 53 -> Zpos (digits2_pos q) <= 53 ->
  SFcompare (Z2SF (Zpos p)) (Z2SF (Zpos q)) = Some (Zpos p ?= Zpos q).
Proof.
  intros Hp Hq.
  destruct (Z2SF_pos_exact p Hp) as (mp & -> & Hmp).
  destruct (Z2SF_pos_exact q Hq) as (mq & -> & Hmq).
  pose proof (digits2_pos_bounds p) as Bp. pose proof (digits2_pos_bounds q) as Bq.
  simpl. f_equal.
  destruct (Z.compare_spec (Zpos (digits2_pos p) - 53) (Zpos (digits2_pos q) - 53))
    as [He|He|He].
  - change (Pos.compare_cont Eq mp mq) with (Zpos mp ?= Zpos mq).
    change (p ?= q)%positive with (Zpos p ?= Zpos q).
    rewrite Hmp, Hmq. replace (Zpos (digits2_pos q)) with (Zpos (digits2_pos p)) by lia.
    symmetry. apply Zmult_compare_compat_r.
    apply Z.lt_gt, Z.pow_pos_nonneg; lia.
  - symmetry. change ((Zpos p ?= Zpos q) = Lt). apply Z.compare_lt_iff.
    assert (2 ^ Zpos (digits2_pos p) <= 2 ^ (Zpos (digits2_pos q) - 1))
      by (apply Z.pow_le_mono_r; lia).
    lia.
  - symmetry. change ((Zpos p ?= Zpos q) = Gt). apply Z.compare_gt_iff.
    assert (2 ^ Zpos (digits2_pos q) <= 2 ^ (Zpos (digits2_pos p) - 1))
      by (apply Z.pow_le_mono_r; lia).
    lia.
Qed.

Lemma digits2_pos_53 (p : positive) :
  Zpos p < 2 ^ 53 -> Zpos (digits2_pos p) <= 53.
Proof.
  intros H. pose proof (digits2_pos_bounds p) as [B _].
  destruct (Z_le_gt_dec (Zpos (digits2_pos p)) 53) as [|Hgt]; [assumption|].
  assert (2 ^ 53 <= 2 ^ (Zpos (digits2_pos p) - 1)) by (apply Z.pow_le_mono_r; lia).
  lia.
Qed.

(** A threshold that lies between the ints [c] and [c + 1] cuts the ints
    of at most 53 bits at [c]. *)
Lemma float_leb_Z2SF_cutoff (T : float) (c p : positive) :
  Zpos c + 1 < 2 ^ 53 -> Zpos p < 2 ^ 53 ->
  float_leb (Z2SF (Zpos c)) T = true ->
  float_ltb T (Z2SF (Zpos c + 1)) = true ->
  float_leb (Z2SF (Zpos p)) T = (Zpos p <=? Zpos c).
Proof.
  intros Hc Hp Hlo Hhi.
  assert (Hord : forall a b : positive,
            Zpos a < 2 ^ 53 -> Zpos b < 2 ^ 53 -> Zpos a <= Zpos b ->
            float_leb (Z2SF (Zpos a)) (Z2SF (Zpos b)) = true).
  { intros a b Ha Hb Hab. unfold float_leb, SFleb.
    rewrite Z2SF_compare_pos by (apply digits2_pos_53; assumption).
    destruct (Z.compare_spec (Zpos a) (Zpos b)); try reflexivity. lia. }
  destruct (Z.leb_spec (Zpos p) (Zpos c)) as [Hle|Hgt].
  - apply (float_leb_trans _ (Z2SF (Zpos c))); [|exact Hlo].
    apply Hord; lia.
  - destruct (float_leb (Z2SF (Zpos p)) T) eqn:E; [|reflexivity].
    exfalso.
    assert (Hc1 : float_leb (Z2SF (Zpos c + 1)) (Z2SF (Zpos p)) = true).
    { change (Zpos c + 1) with (Zpos (c + 1)). apply Hord; lia. }
    pose proof (float_leb_trans _ _ _ Hc1 E) as Hcontra.
    rewrite (float_ltb_not_leb _ _ Hhi) in Hcontra. discriminate Hcontra.
Qed.

Lemma int_cutoffs_lookup (name : string) (lo hi : Z) :
  (name, lo, hi) ∈ int_cutoffs ->
  exists t clo chi,
    lower name = name /\ THRESHOLDS !! name = Some t /\
    lo = Zpos clo /\ hi = Zpos chi /\
    cuts_at (num_as_float (low t)) clo /\ cuts_at (num_as_float (high t)) chi.
Proof.
  unfold int_cutoffs. intros H.
  repeat (apply elem_of_cons in H as [H|H];
          [ injection H as -> -> ->;
            eexists _, _, _; split; [reflexivity|];
            split; [vm_compute; reflexivity|];
            split; [reflexivity|]; split; [reflexivity|];
            split; (split; [reflexivity|]; split; [vm_compute; reflexivity|];
                    split; [vm_compute; reflexivity|];
                    vm_compute; eexists _, _; reflexivity) | ]).
  apply elem_of_nil in H. contradiction.
Qed.

(** An int of at most 53 bits is classified by its exact value: the
    conversion to binary64 does not round it, so the bands are cut at the
    largest ints not above the thresholds. *)
Theorem classify_property_int_exact
    (float_of_str : string -> option float) (name : string) (lo hi z : Z) :
  (name, lo, hi) ∈ int_cutoffs ->
  Z.abs z < 2 ^ 53 ->
  classify_property float_of_str (PInt z) name = Ok (band_of_int lo hi z).
Proof.
  intros Hin Hz.
  destruct (int_cutoffs_lookup _ _ _ Hin)
    as (t & clo & chi & Hl & Ht & -> & -> & Hlo & Hhi).
  destruct Hlo as (Hclo & Hlo1 & Hlo2 & mlo & elo & Hlo3).
  destruct Hhi as (Hchi & Hhi1 & Hhi2 & mhi & ehi & Hhi3).
  unfold classify_property, py_float, float_of_int, float_le_num, band_of_int.
  rewrite Hl, Ht.
  destruct z as [|p|p].
  - change (Z2SF 0) with (S754_zero false). rewrite Hlo3. reflexivity.
  - assert (Hp : Zpos p < 2 ^ 53) by lia.
    destruct (Z2SF_pos_exact p (digits2_pos_53 p Hp)) as (mz & Hconv & _).
    rewrite <- (float_leb_Z2SF_cutoff _ clo p Hclo Hp Hlo1 Hlo2).
    rewrite <- (float_leb_Z2SF_cutoff _ chi p Hchi Hp Hhi1 Hhi2).
    rewrite Hconv.
    repeat match goal with
      | |- context [float_leb ?a ?b] => destruct (float_leb a b)
      end; reflexivity.
  - assert (Hp : Zpos p < 2 ^ 53) by lia.
    destruct (binary_round_exact true p (digits2_pos_53 p Hp)) as (mz & Hconv & _).
    unfold Z2SF, binary_normalize. rewrite Hconv, Hlo3. reflexivity.
Qed.

Lemma classify_property_int_exact_witness :
  classify_property no_parse (PInt 60) "phosphorus" = Ok "High" /\
  classify_property no_parse (PInt 5) "ph" = Ok "Low" /\
  classify_property no_parse (PInt (-3)) "nitrogen" = Ok "Low".
Proof.
  split; [|split].
  - apply (classify_property_int_exact no_parse "phosphorus" 10 50 60).
    + unfold int_cutoffs. repeat constructor.
    + reflexivity.
  - apply (classify_property_int_exact no_parse "ph" 5 7 5).
    + unfold int_cutoffs. repeat constructor.
    + reflexivity.
  - apply (classify_property_int_exact no_parse "nitrogen" 1 5 (-3)).
    + unfold int_cutoffs. repeat constructor.
    + reflexivity.
Defined.
